(** * AI Interior Design Assistant: gateway, client service and orchestrator

    A shallow embedding of the three layers of the application:
    - [Gateway]: the edge handler of [src/api/generate.ts] (prompt
      construction and the mapping of the backend response),
    - [Service]: the client wrappers of [src/services/geminiService.ts],
    - [App]: the three flows of the [App] component (plan and image,
      recolor, more palettes).

    JavaScript strings are modelled as [string] (sequences of 8-bit
    characters, read as the UTF-8 text of the value), optional fields as
    [option], arrays as [list], thrown errors by the [Exn] monad and the
    suspension of an [async] function at an [await] by the [Flow] type. *)

From Stdlib Require Import String Ascii List Bool ZArith NArith Lia.
From Stdlib Require Import Numbers.DecimalString.
Import ListNotations.

Open Scope list_scope.
Open Scope string_scope.

(** ** JavaScript primitives used by the program *)

Module Js.

(** The double quote and the line feed, which the source writes inside
    template literals. *)
Definition dq : string := String (ascii_of_nat 34) EmptyString.
Definition nl : string := String (ascii_of_nat 10) EmptyString.

(** Truthiness of a string: every string but the empty one. *)
Definition truthy (s : string) : bool :=
  match s with
  | EmptyString => false
  | String _ _ => true
  end.

(** Truthiness of an optional string ([undefined] is falsy). *)
Definition truthy_opt (o : option string) : bool :=
  match o with
  | Some s => truthy s
  | None => false
  end.

(** [a === s] where [a] may be [undefined]. *)
Definition strict_eq_opt (a : option string) (s : string) : bool :=
  match a with
  | Some x => x =? s
  | None => false
  end.

(** [!!x] for an optional object. *)
Definition isSome {A : Type} (o : option A) : bool :=
  match o with
  | Some _ => true
  | None => false
  end.

(** [a || b] on strings. *)
Definition or_else (a b : string) : string :=
  if truthy a then a else b.

(** [a || b] where [a] may be [undefined]. *)
Definition or_else_opt (a : option string) (b : string) : string :=
  match a with
  | Some s => or_else s b
  | None => b
  end.

(** [Array.prototype.join] on an array of strings. *)
Fixpoint join (sep : string) (l : list string) : string :=
  match l with
  | [] => EmptyString
  | [x] => x
  | x :: rest => x ++ sep ++ join sep rest
  end.

(** [Array.prototype.filter(Boolean)] on an array of optional strings:
    [undefined] and the empty string are dropped. *)
Fixpoint filterBoolean (l : list (option string)) : list string :=
  match l with
  | [] => []
  | Some s :: rest => if truthy s then s :: filterBoolean rest else filterBoolean rest
  | None :: rest => filterBoolean rest
  end.

(** [String.prototype.toLowerCase] on the ASCII range.  Characters above
    127 are the bytes of multi-byte UTF-8 sequences and stay as they are;
    no such sequence lower-cases to one of the letters of "exterior", so
    comparisons with that word are not affected. *)
Definition lower_ascii (c : ascii) : ascii :=
  let n := N_of_ascii c in
  if (65 <=? n)%N && (n <=? 90)%N then ascii_of_N (n + 32) else c.

Fixpoint toLowerCase (s : string) : string :=
  match s with
  | EmptyString => EmptyString
  | String c rest => String (lower_ascii c) (toLowerCase rest)
  end.

(** Number to string for an HTTP status code, an integer between 0 and
    65535, which JavaScript prints with all its decimal digits. *)
Definition numberToString (z : Z) : string :=
  NilZero.string_of_int (Z.to_int z).

(** A JavaScript number, as far as the program observes one: through its
    truthiness (false for 0, -0 and NaN only) and through its conversion
    to a string in a template literal.  The conversion is the one of the
    engine (12 for twelve, 10.5, 1e+21); it is not computed here: every
    number comes with the text the engine gives it. *)
Record JsNumber : Type := mkNumber {
  toBoolean : bool;
  toText : string
}.

(** A thrown [Error] carries its message; [Exn] is the result of code
    that may throw. *)
Inductive Exn (A : Type) : Type :=
| Return (a : A)
| Throw (message : string).
Arguments Return {A} a.
Arguments Throw {A} message.

Definition bind {A B : Type} (m : Exn A) (k : A -> Exn B) : Exn B :=
  match m with
  | Return a => k a
  | Throw msg => Throw msg
  end.

(** [try { m } catch (error) { h error.message }] *)
Definition try_catch {A : Type} (m : Exn A) (h : string -> A) : A :=
  match m with
  | Return a => a
  | Throw msg => h msg
  end.

End Js.

Notation "x <- m ;; k" := (Js.bind m (fun x => k))
  (at level 61, m at next level, right associativity).

(** ** Substrings *)

(** [Contains sub s]: [sub] occurs in [s]. *)
Definition Contains (sub s : string) : Prop :=
  exists pre post : string, s = pre ++ sub ++ post.

(** [EndsWith suffix s]: [s] ends with [suffix]. *)
Definition EndsWith (suffix s : string) : Prop :=
  exists pre : string, s = pre ++ suffix.


(** ** Data model *)

(** Modelled from the spec: [types.ts] is not part of the sources; the
    records below follow section 3 of the specification and the fields the
    code reads.  The prices and costs, which the modelled code never
    reads, are taken as integers. *)

(** The order of the two keys of a palette object.  A palette comes out
    of [JSON.parse] with its keys in the order of the text, and
    [JSON.stringify] writes them in that order. *)
Inductive KeyOrder : Type :=
| ColorFirst
| AccentFirst.

Record ColorPalette : Type := mkPaletteObject {
  color : string;
  accent : string;
  keyOrder : KeyOrder
}.

(** The palette [{ color: c, accent: a }], its keys in the order of the
    type. *)
Definition mkPalette (c a : string) : ColorPalette :=
  mkPaletteObject c a ColorFirst.

Record FurnitureSuggestion : Type := mkFurniture {
  name : string;
  description : string;
  placement : string;
  estimatedPrice : Z;
  modelUrl : option string
}.

Record EstimatedCost : Type := mkCost {
  min : Z;
  max : Z;
  currency : string
}.

Record DesignPlan : Type := mkPlan {
  analysis : string;
  designRationale : string;
  wallColor : ColorPalette;
  lighting : string;
  flooring : string;
  furnitureSuggestions : list FurnitureSuggestion;
  estimatedCost : EstimatedCost;
  alternativePalettes : list ColorPalette
}.

(** Modelled from the spec: a dimension is a number or the empty string
    (the initial value in [App]); [None] stands for the empty string. *)
Record RoomDimensions : Type := mkDims {
  width : option Js.JsNumber;
  length : option Js.JsNumber;
  unit : string
}.

Module JsNum.
(** Truthiness of a number. *)
Definition truthy (n : Js.JsNumber) : bool := Js.toBoolean n.

(** Truthiness of a dimension field (a number or the empty string). *)
Definition truthy_dim (o : option Js.JsNumber) : bool :=
  match o with
  | Some n => truthy n
  | None => false
  end.
End JsNum.

(** ** The HTTP boundary between the client and the gateway *)

Module Http.

(** A response whose JSON body the client reads in two ways: its [error]
    field ([result.error]) and the body cast to the expected result type
    ([result as T]).  The status is the status code of the response, an
    integer between 0 and 65535. *)
Record Response (T : Type) : Type := mkResponse {
  status : Z;
  error : option string;
  result : T
}.
Arguments mkResponse {T} status error result.
Arguments status {T} r.
Arguments error {T} r.
Arguments result {T} r.

(** [response.ok]: the status is in the range 200-299. *)
Definition ok {T : Type} (r : Response T) : bool :=
  ((200 <=? status r) && (status r <=? 299))%Z.

(** The body of a [generateRedesignedImage] response. *)
Record ImageResult : Type := mkImageResult {
  imageBytes : option string
}.

End Http.

(** ** Generation gateway ([src/api/generate.ts]) *)

(** The source file holds two revisions of the handler.  The embedding
    follows the first one (lines 1 to 230), whose error path derives the
    failure message from the backend response; the second revision builds
    the same requests with reworded templates and throws a fixed message. *)

Module Gateway.
Import Js.

(** *** The shape of the backend response *)

Record InlineData : Type := mkInlineData {
  mimeType : option string;
  data : option string
}.

Record Part : Type := mkPart {
  text : option string;
  inlineData : option InlineData
}.

Record Content : Type := mkContent {
  parts : option (list Part)
}.

Record SafetyRating : Type := mkRating {
  category : string;
  blocked : option bool
}.

Record Candidate : Type := mkCandidate {
  content : option Content;
  finishReason : option string;
  safetyRatings : option (list SafetyRating)
}.

Record GenerateContentResponse : Type := mkGenResponse {
  candidates : option (list Candidate)
}.

(** *** The request sent to the backend *)

Inductive RequestPart : Type :=
| InlineImage (mime : string) (bytes : string)
| TextPart (prompt : string).

Record ModelRequest : Type := mkModelRequest {
  model : string;
  contents : list RequestPart
}.

(** *** generateDesignIdeas: the prompt *)

Definition dimensionClause (w l : JsNumber) (unitName : string) : string :=
  " The user has specified the room is approximately " ++ toText w ++
  " " ++ unitName ++ " wide by " ++ toText l ++ " " ++ unitName ++
  " long. Please ensure your furniture suggestions and layout advice are appropriately scaled for a room of this size and explicitly mention this in your analysis.".

(** [let dimensionText = ''; if (dimensions && dimensions.width &&
    dimensions.length) { ... }] *)
Definition dimensionText (dimensions : option RoomDimensions) : string :=
  match dimensions with
  | None => EmptyString
  | Some d =>
      match width d, length d with
      | Some w, Some l =>
          if JsNum.truthy w && JsNum.truthy l then
            let unitName := if unit d =? "ft" then "feet" else "meters" in
            dimensionClause w l unitName
          else EmptyString
      | _, _ => EmptyString
      end
  end.

Definition designIdeasText (style roomType dimensionText : string) : string :=
  "You are a world-class AI interior designer with a keen eye for detail and aesthetics. Analyze the provided room image, which is a " ++
  roomType ++ ", and generate a complete design makeover plan in a friendly and inspiring tone. The user wants a " ++
  dq ++ style ++ dq ++ " style. Your recommendations must be appropriate for a " ++
  roomType ++ ". Your goal is to create a truly inspiring and practical makeover plan." ++
  nl ++
  "                " ++ dimensionText ++ nl ++
  "                Your tasks are:" ++ nl ++
  "                1. Briefly analyze the current room's strengths and weaknesses." ++
  nl ++
  "                2. Suggest a full makeover based on the selected style, keeping the provided dimensions in mind if available." ++
  nl ++
  "                3. Output specific ideas for a primary wall color palette, flooring, and lighting." ++
  nl ++
  "                4. Recommend 3-5 key furniture or decor items with detailed descriptions and placement suggestions. Ensure items are scaled correctly for the room. For each recommended item, you must also provide a `modelUrl`, which should be a publicly accessible URL to a 3D model of the item, preferably in GLTF or OBJ format. If a real model cannot be found, provide a realistic placeholder URL (e.g., 'https://models.example.com/modern_chair.gltf')." ++
  nl ++
  "                5. Provide a realistic, estimated total budget range (min and max) for the complete makeover. Also, include an estimated price for each recommended furniture item. All monetary values should be in USD." ++
  nl ++
  "                6. Also provide exactly 3 alternative color palettes (primary and accent) that would offer a different mood while still fitting the requested style." ++
  nl ++
  "                7. Provide a 'Design Rationale' explaining why your suggestions create a cohesive and high-quality '" ++
  style ++ "' design, touching on principles like balance, harmony, or focal points." ++
  nl ++
  nl ++
  "                Provide the output in JSON format according to the provided schema. Ensure the descriptions are vivid and helpful.".

(** The text part of the [generateDesignIdeas] request. *)
Definition designIdeasPrompt (style : string)
    (dimensions : option RoomDimensions) (roomType : string) : string :=
  designIdeasText style roomType (dimensionText dimensions).

Definition designIdeasRequest (base64Image style : string)
    (dimensions : option RoomDimensions) (roomType : string) : ModelRequest :=
  mkModelRequest "gemini-2.5-flash"
    [InlineImage "image/jpeg" base64Image;
     TextPart (designIdeasPrompt style dimensions roomType)].

(** *** generateRedesignedImage: the prompt *)

Definition exteriorTemplate (designPlan : DesignPlan)
    (style primaryColor accentColor furnitureList : string) : string :=
  "Task: Redesign this building exterior in a photorealistic " ++ dq ++
  style ++ dq ++ " style." ++ nl ++
  "Instructions:" ++ nl ++
  "1. Change the main color to " ++ dq ++ primaryColor ++ dq ++ " with " ++
  dq ++ accentColor ++ dq ++ " accents." ++ nl ++
  "2. Update landscaping and add outdoor items: " ++ furnitureList ++
  "." ++ nl ++
  "3. The lighting should be " ++ dq ++ lighting designPlan ++ dq ++
  "." ++ nl ++
  "4. IMPORTANT: Do not alter the building's core structure (walls, windows, roof)." ++
  nl ++
  "Output: Return ONLY the final, edited image without any surrounding text or explanation.".

Definition interiorTemplate (designPlan : DesignPlan)
    (style roomType primaryColor furnitureList : string) : string :=
  "Task: Redesign the interior of this " ++ roomType ++ " photorealistically in the " ++
  dq ++ style ++ dq ++ " style." ++ nl ++
  "Instructions:" ++ nl ++
  "1. Remove ALL existing furniture, decor, and items from the room." ++
  nl ++
  "2. Change the wall color to " ++ dq ++ primaryColor ++ dq ++ "." ++
  nl ++
  "3. Change the floor to " ++ dq ++ flooring designPlan ++ dq ++ "." ++
  nl ++
  "4. Add the following new furniture, arranged in a natural and functional layout: " ++
  furnitureList ++ "." ++ nl ++
  "5. Adjust the lighting to be like " ++ dq ++ lighting designPlan ++
  dq ++ "." ++ nl ++
  "6. IMPORTANT: Do not alter the room's core structure (windows, doors, architectural features)." ++
  nl ++
  "Output: Return ONLY the final, redesigned image without any surrounding text or explanation.".

(** [newColors?.color || designPlan.wallColor.color] *)
Definition primaryColor (designPlan : DesignPlan)
    (newColors : option ColorPalette) : string :=
  or_else_opt (option_map color newColors) (color (wallColor designPlan)).

(** [newColors?.accent || designPlan.wallColor.accent] *)
Definition accentColor (designPlan : DesignPlan)
    (newColors : option ColorPalette) : string :=
  or_else_opt (option_map accent newColors) (accent (wallColor designPlan)).

(** [roomType.toLowerCase() === 'exterior'] *)
Definition isExterior (roomType : string) : bool :=
  toLowerCase roomType =? "exterior".

Definition furnitureList (designPlan : DesignPlan) : string :=
  join ", " (map name (furnitureSuggestions designPlan)).

(** The choice between the two templates, once the colors are known. *)
Definition imagePromptWith (designPlan : DesignPlan)
    (style roomType primaryColor accentColor : string) : string :=
  if isExterior roomType then
    exteriorTemplate designPlan style primaryColor accentColor
      (furnitureList designPlan)
  else
    interiorTemplate designPlan style roomType primaryColor
      (furnitureList designPlan).

(** The text part of the [generateRedesignedImage] request. *)
Definition redesignedImagePrompt (designPlan : DesignPlan)
    (style roomType : string) (newColors : option ColorPalette) : string :=
  imagePromptWith designPlan style roomType
    (primaryColor designPlan newColors) (accentColor designPlan newColors).

Definition redesignedImageRequest (designPlan : DesignPlan)
    (style roomType base64Image : string)
    (newColors : option ColorPalette) : ModelRequest :=
  mkModelRequest "gemini-2.5-flash-image-preview"
    [InlineImage "image/jpeg" base64Image;
     TextPart (redesignedImagePrompt designPlan style roomType newColors)].

(** *** generateRedesignedImage: mapping of the backend response *)

(** [response.candidates?.[0]] *)
Definition firstCandidate (response : GenerateContentResponse)
    : option Candidate :=
  match candidates response with
  | Some (c :: _) => Some c
  | _ => None
  end.

(** [candidate?.content?.parts] *)
Definition candidateParts (candidate : option Candidate)
    : option (list Part) :=
  match candidate with
  | Some c =>
      match content c with
      | Some ct => parts ct
      | None => None
      end
  | None => None
  end.

(** The loop [for (const part of candidate.content.parts)], which returns
    at the first part with [part.inlineData && part.inlineData.data]. *)
Fixpoint scanParts (ps : list Part) : option string :=
  match ps with
  | [] => None
  | part :: rest =>
      match inlineData part with
      | Some d =>
          match data d with
          | Some bytes => if truthy bytes then Some bytes else scanParts rest
          | None => scanParts rest
          end
      | None => scanParts rest
      end
  end.

(** The happy path: [if (candidate?.content?.parts) { for ... }]. *)
Definition findImage (candidate : option Candidate) : option string :=
  match candidateParts candidate with
  | Some ps => scanParts ps
  | None => None
  end.

Definition noTextResponse : string := "[No text response]".

(** [candidate?.content?.parts?.map(p => p.text).filter(Boolean).join(' ')
    || '[No text response]'] *)
Definition textResponse (candidate : option Candidate) : string :=
  or_else_opt
    (option_map (fun ps => join " " (filterBoolean (map text ps)))
       (candidateParts candidate))
    noTextResponse.

(** [r => r.blocked] as a filter predicate. *)
Definition isBlocked (r : SafetyRating) : bool :=
  match blocked r with
  | Some b => b
  | None => false
  end.

(** [safetyRatings?.filter(r => r.blocked).map(r => r.category).join(', ')
    || 'unknown'] *)
Definition blockedCategories (safetyRatings : option (list SafetyRating))
    : string :=
  or_else_opt
    (option_map (fun rs => join ", " (map category (filter isBlocked rs)))
       safetyRatings)
    "unknown".

Definition defaultMessage : string :=
  "The AI did not return a redesigned image.".

Definition safetyMessage (blockedCategories : string) : string :=
  "Image generation was blocked by safety filters for the following reasons: " ++
  blockedCategories ++ ".".

Definition textMessage (textResponse : string) : string :=
  "The AI returned a text message instead of an image: " ++ dq ++
  textResponse ++ dq.

Definition stopMessage (finishReason : string) : string :=
  defaultMessage ++
  " The process stopped unexpectedly. Reason: " ++ finishReason ++ ".".

Definition noCandidatesMessage : string :=
  "The AI returned no valid candidates in the response.".

(** The error path: the message of the [Error] that is thrown. *)
Definition errorMessage (candidate : option Candidate) : string :=
  let finishReason := match candidate with
                      | Some c => finishReason c
                      | None => None
                      end in
  let safetyRatings := match candidate with
                       | Some c => safetyRatings c
                       | None => None
                       end in
  let textResponse := textResponse candidate in
  if strict_eq_opt finishReason "SAFETY" then
    safetyMessage (blockedCategories safetyRatings)
  else if negb (textResponse =? noTextResponse) then
    textMessage textResponse
  else if truthy_opt finishReason then
    stopMessage (or_else_opt finishReason EmptyString)
  else if negb (isSome candidate) then
    noCandidatesMessage
  else
    defaultMessage.

(** The part of the [generateRedesignedImage] case that follows the
    backend call. *)
Definition mapRedesignedImage (response : GenerateContentResponse)
    : Exn (Http.Response Http.ImageResult) :=
  let candidate := firstCandidate response in
  match findImage candidate with
  | Some bytes =>
      Return (Http.mkResponse 200%Z None (Http.mkImageResult (Some bytes)))
  | None => Throw (errorMessage candidate)
  end.

(** The outer [catch] of the handler: any thrown error becomes a 500
    response with [{ error: `Server error: ${errorMessage}` }]. *)
Definition serverError (message : string) : Http.Response Http.ImageResult :=
  Http.mkResponse 500%Z (Some ("Server error: " ++ message))
    (Http.mkImageResult None).

Record RedesignPayload : Type := mkRedesignPayload {
  designPlan : DesignPlan;
  style : string;
  roomType : string;
  base64Image : string;
  newColors : option ColorPalette
}.

(** The handler on a [generateRedesignedImage] request.  [API_KEY] is the
    environment variable and [generateContent] the backend call, which
    may itself throw. *)
Definition handleRedesignedImage (method : string) (API_KEY : option string)
    (generateContent : ModelRequest -> Exn GenerateContentResponse)
    (payload : RedesignPayload) : Http.Response Http.ImageResult :=
  if negb (method =? "POST") then
    Http.mkResponse 405%Z (Some "Method not allowed") (Http.mkImageResult None)
  else
    try_catch
      (if negb (truthy_opt API_KEY) then
         Throw "API_KEY environment variable is not set."
       else
         response <- generateContent
           (redesignedImageRequest (designPlan payload) (style payload)
              (roomType payload) (base64Image payload) (newColors payload)) ;;
         mapRedesignedImage response)
      serverError.

(** *** generateMorePalettes: the prompt *)

(** [p => `- ${p.color} & ${p.accent}`] *)
Definition paletteLine (p : ColorPalette) : string :=
  "- " ++ color p ++ " & " ++ accent p.

(** [[designPlan.wallColor, ...designPlan.alternativePalettes].map(...)
    .join('\n')] *)
Definition existingPalettes (designPlan : DesignPlan) : string :=
  join nl
    (map paletteLine (wallColor designPlan :: alternativePalettes designPlan)).

Definition morePalettesText (designPlan : DesignPlan)
    (style existingPalettes : string) : string :=
  "You are an AI color consultant for an interior design app. Based on the following design analysis for a " ++
  dq ++ style ++ dq ++ " themed room, please generate exactly 3 new and distinct color palettes. **Design Analysis:** " ++
  analysis designPlan ++ " **Important:** The user has already seen the following palettes, so please provide completely different options that suggest different moods (e.g., one calming, one energetic, one sophisticated): " ++
  existingPalettes ++ " Return the output as a JSON array of objects, where each object has a 'color' and 'accent' property, according to the provided schema.".

Definition morePalettesPrompt (designPlan : DesignPlan) (style : string)
    : string :=
  morePalettesText designPlan style (existingPalettes designPlan).

Definition morePalettesRequest (designPlan : DesignPlan) (style : string)
    : ModelRequest :=
  mkModelRequest "gemini-2.5-flash"
    [TextPart (morePalettesPrompt designPlan style)].

End Gateway.

(** ** JSON serialisation of a palette ([JSON.stringify]) *)

Module Json.
Import Js.

Definition backslash : ascii := ascii_of_nat 92.
Definition quote : ascii := ascii_of_nat 34.

(** A hexadecimal digit, in lower case. *)
Definition hexDigit (n : N) : ascii :=
  if (n <? 10)%N then ascii_of_N (48 + n) else ascii_of_N (87 + n).

(** The escape of one character inside a JSON string: the short escapes,
    [\u00XX] for the other control characters, the character itself
    otherwise. *)
Definition escapeChar (c : ascii) : string :=
  let n := N_of_ascii c in
  if (n =? 8)%N then String backslash "b"
  else if (n =? 9)%N then String backslash "t"
  else if (n =? 10)%N then String backslash "n"
  else if (n =? 12)%N then String backslash "f"
  else if (n =? 13)%N then String backslash "r"
  else if (n =? 34)%N then String backslash (String quote EmptyString)
  else if (n =? 92)%N then String backslash (String backslash EmptyString)
  else if (n <? 32)%N then
    String backslash
      (String "u" (String "0" (String "0"
         (String (hexDigit (n / 16)) (String (hexDigit (n mod 16)) EmptyString)))))
  else String c EmptyString.

Fixpoint escape (s : string) : string :=
  match s with
  | EmptyString => EmptyString
  | String c rest => escapeChar c ++ escape rest
  end.

(** [JSON.stringify] of a string. *)
Definition stringifyString (s : string) : string :=
  dq ++ escape s ++ dq.

(** [JSON.stringify] of a palette: its two properties in the order of
    its keys. *)
Definition stringify (p : ColorPalette) : string :=
  match keyOrder p with
  | ColorFirst =>
      "{" ++ dq ++ "color" ++ dq ++ ":" ++ stringifyString (color p) ++
      "," ++ dq ++ "accent" ++ dq ++ ":" ++ stringifyString (accent p) ++ "}"
  | AccentFirst =>
      "{" ++ dq ++ "accent" ++ dq ++ ":" ++ stringifyString (accent p) ++
      "," ++ dq ++ "color" ++ dq ++ ":" ++ stringifyString (color p) ++ "}"
  end.

(** [Array.prototype.includes] on an array of strings. *)
Definition includes (l : list string) (s : string) : bool :=
  existsb (String.eqb s) l.

(** Reading one escaped character back from the front of a text; a quote
    is not the start of an escaped character. *)
Definition unhexDigit (c : ascii) : option N :=
  let n := N_of_ascii c in
  if (48 <=? n)%N && (n <=? 57)%N then Some (n - 48)%N
  else if (97 <=? n)%N && (n <=? 102)%N then Some (n - 87)%N
  else None.

Definition readChar (s : string) : option (ascii * string) :=
  match s with
  | EmptyString => None
  | String c rest =>
      if (N_of_ascii c =? 34)%N then None
      else if (N_of_ascii c =? 92)%N then
        match rest with
        | EmptyString => None
        | String x rest' =>
            let n := N_of_ascii x in
            if (n =? 98)%N then Some (ascii_of_N 8, rest')
            else if (n =? 116)%N then Some (ascii_of_N 9, rest')
            else if (n =? 110)%N then Some (ascii_of_N 10, rest')
            else if (n =? 102)%N then Some (ascii_of_N 12, rest')
            else if (n =? 114)%N then Some (ascii_of_N 13, rest')
            else if (n =? 34)%N then Some (quote, rest')
            else if (n =? 92)%N then Some (backslash, rest')
            else if (n =? 117)%N then
              match rest' with
              | String _ (String _ (String h (String l rest''))) =>
                  match unhexDigit h, unhexDigit l with
                  | Some a, Some b => Some (ascii_of_N (16 * a + b), rest'')
                  | _, _ => None
                  end
              | _ => None
              end
            else None
        end
      else Some (c, rest)
  end.

End Json.

(** ** Client service ([src/services/geminiService.ts]) *)

Module Service.
Import Js.

(** [callApi]: [fetched] is the outcome of [fetch] followed by
    [response.json()], either of which may reject; the [catch] logs and
    throws the error again. *)
Definition callApi {T : Type} (fetched : Exn (Http.Response T)) : Exn T :=
  response <- fetched ;;
  if negb (Http.ok response) then
    Throw (or_else_opt (Http.error response)
             ("API request failed with status " ++
              numberToString (Http.status response)))
  else Return (Http.result response).

Definition generateDesignIdeas (fetched : Exn (Http.Response DesignPlan))
    : Exn DesignPlan :=
  callApi fetched.

Definition noImageData : string :=
  "API response did not include image data.".

Definition generateRedesignedImage
    (fetched : Exn (Http.Response Http.ImageResult)) : Exn string :=
  result <- callApi fetched ;;
  match Http.imageBytes result with
  | Some bytes => if truthy bytes then Return bytes else Throw noImageData
  | None => Throw noImageData
  end.

Definition generateMorePalettes
    (fetched : Exn (Http.Response (list ColorPalette)))
    : Exn (list ColorPalette) :=
  callApi fetched.

(** The payloads of the three actions. *)
Record DesignIdeasPayload : Type := mkDesignIdeasPayload {
  ideas_base64Image : string;
  ideas_style : string;
  ideas_dimensions : RoomDimensions;
  ideas_roomType : string
}.

Record MorePalettesPayload : Type := mkMorePalettesPayload {
  more_designPlan : DesignPlan;
  more_style : string
}.

(** The network as the client sees it: the outcome of the request of
    each action. *)
Record Network : Type := mkNetwork {
  fetchDesignIdeas : DesignIdeasPayload -> Exn (Http.Response DesignPlan);
  fetchRedesignedImage :
    Gateway.RedesignPayload -> Exn (Http.Response Http.ImageResult);
  fetchMorePalettes :
    MorePalettesPayload -> Exn (Http.Response (list ColorPalette))
}.

End Service.

(** ** Client orchestrator (the [App] component) *)

Module App.
Import Js.

Definition DESIGN_STYLES : list string :=
  ["Modern"; "Minimalist"; "Industrial"; "Scandinavian"; "Bohemian";
   "Coastal"; "Farmhouse"; "Mid-Century Modern"; "Art Deco"; "Shabby Chic";
   "Eclectic"].

Definition ROOM_TYPES : list string :=
  ["Living Room"; "Bedroom"; "Kitchen"; "Dining Room"; "Home Office";
   "Bathroom"; "Kids Room"; "Entryway"; "Exterior"].

(** The state held by the component's [useState] hooks (the theme, which
    no flow reads or writes, is left out). *)
Record State : Type := mkState {
  selectedRoomType : string;
  selectedStyle : string;
  uploadedImage : option string;
  imagePreview : option string;
  roomDimensions : RoomDimensions;
  designPlan : option DesignPlan;
  generatedImage : option string;
  isLoading : bool;
  isRegenerating : bool;
  isFetchingPalettes : bool;
  error : option string;
  feedbackSubmitted : bool
}.

Definition initialState : State :=
  mkState (hd EmptyString ROOM_TYPES) (hd EmptyString DESIGN_STYLES)
    None None (mkDims None None "ft") None None false false false None false.

(** The setters of the hooks. *)
Definition setDesignPlan (v : option DesignPlan) (st : State) : State :=
  mkState (selectedRoomType st) (selectedStyle st) (uploadedImage st)
    (imagePreview st) (roomDimensions st) v (generatedImage st)
    (isLoading st) (isRegenerating st) (isFetchingPalettes st) (error st)
    (feedbackSubmitted st).

Definition setGeneratedImage (v : option string) (st : State) : State :=
  mkState (selectedRoomType st) (selectedStyle st) (uploadedImage st)
    (imagePreview st) (roomDimensions st) (designPlan st) v
    (isLoading st) (isRegenerating st) (isFetchingPalettes st) (error st)
    (feedbackSubmitted st).

Definition setIsLoading (v : bool) (st : State) : State :=
  mkState (selectedRoomType st) (selectedStyle st) (uploadedImage st)
    (imagePreview st) (roomDimensions st) (designPlan st) (generatedImage st)
    v (isRegenerating st) (isFetchingPalettes st) (error st)
    (feedbackSubmitted st).

Definition setIsRegenerating (v : bool) (st : State) : State :=
  mkState (selectedRoomType st) (selectedStyle st) (uploadedImage st)
    (imagePreview st) (roomDimensions st) (designPlan st) (generatedImage st)
    (isLoading st) v (isFetchingPalettes st) (error st)
    (feedbackSubmitted st).

Definition setIsFetchingPalettes (v : bool) (st : State) : State :=
  mkState (selectedRoomType st) (selectedStyle st) (uploadedImage st)
    (imagePreview st) (roomDimensions st) (designPlan st) (generatedImage st)
    (isLoading st) (isRegenerating st) v (error st)
    (feedbackSubmitted st).

Definition setError (v : option string) (st : State) : State :=
  mkState (selectedRoomType st) (selectedStyle st) (uploadedImage st)
    (imagePreview st) (roomDimensions st) (designPlan st) (generatedImage st)
    (isLoading st) (isRegenerating st) (isFetchingPalettes st) v
    (feedbackSubmitted st).

Definition setFeedbackSubmitted (v : bool) (st : State) : State :=
  mkState (selectedRoomType st) (selectedStyle st) (uploadedImage st)
    (imagePreview st) (roomDimensions st) (designPlan st) (generatedImage st)
    (isLoading st) (isRegenerating st) (isFetchingPalettes st) (error st)
    v.

(** [setDesignPlan(prevPlan => ...)]: the updater reads the plan held
    when the update is applied. *)
Definition updateDesignPlan
    (f : option DesignPlan -> option DesignPlan) (st : State) : State :=
  setDesignPlan (f (designPlan st)) st.

(** An [async] handler between two [await]s.  [Done st]: the handler has
    returned, leaving the state [st].  [Await... st payload k]: the
    handler has left the state [st] and waits for the call on [payload];
    [k outcome now] continues with the outcome of the call on the state
    [now] held at that time. *)
Inductive Flow : Type :=
| Done (st : State)
| AwaitDesignIdeas (st : State) (payload : Service.DesignIdeasPayload)
    (k : Exn DesignPlan -> State -> Flow)
| AwaitRedesignedImage (st : State) (payload : Gateway.RedesignPayload)
    (k : Exn string -> State -> Flow)
| AwaitMorePalettes (st : State) (payload : Service.MorePalettesPayload)
    (k : Exn (list ColorPalette) -> State -> Flow).

(** The state a flow has left so far. *)
Definition committed (f : Flow) : State :=
  match f with
  | Done st => st
  | AwaitDesignIdeas st _ _ => st
  | AwaitRedesignedImage st _ _ => st
  | AwaitMorePalettes st _ _ => st
  end.

(** A flow run to its end on a network, with nothing else touching the
    state while it waits. *)
Fixpoint run (net : Service.Network) (f : Flow) : State :=
  match f with
  | Done st => st
  | AwaitDesignIdeas st payload k =>
      run net
        (k (Service.generateDesignIdeas (Service.fetchDesignIdeas net payload)) st)
  | AwaitRedesignedImage st payload k =>
      run net
        (k (Service.generateRedesignedImage
              (Service.fetchRedesignedImage net payload)) st)
  | AwaitMorePalettes st payload k =>
      run net
        (k (Service.generateMorePalettes (Service.fetchMorePalettes net payload)) st)
  end.

Definition dataUrl (imageBytes : string) : string :=
  "data:image/jpeg;base64," ++ imageBytes.

(** *** Primary flow: [handleGenerateClick] *)

Definition missingInputMessage : string :=
  "Please upload an image, select a room type, and a design style.".

Definition imageFailedMessage : string :=
  "I've created the design plan, but couldn't visualize the room. You can still see the ideas below!".

Definition planFailedMessage : string :=
  "Sorry, I couldn't generate a design plan. This can happen if the AI is under heavy load or if the image is unsuitable for analysis. Please try again in a few moments, or with a different photo.".

Definition handleGenerateClick (st : State) : Flow :=
  match uploadedImage st with
  | None => Done (setError (Some missingInputMessage) st)
  | Some image =>
      if negb (truthy image) || negb (truthy (selectedStyle st))
         || negb (truthy (selectedRoomType st))
      then Done (setError (Some missingInputMessage) st)
      else
        AwaitDesignIdeas
          (setFeedbackSubmitted false
             (setGeneratedImage None
                (setDesignPlan None (setError None (setIsLoading true st)))))
          (Service.mkDesignIdeasPayload image (selectedStyle st)
             (roomDimensions st) (selectedRoomType st))
          (fun planOutcome now =>
             match planOutcome with
             | Return newPlan =>
                 (* setDesignPlan(newPlan); then
                    [if (!uploadedImage) throw ...], caught below *)
                 if negb (truthy image) then
                   Done (setIsLoading false
                           (setError (Some imageFailedMessage)
                              (setDesignPlan (Some newPlan) now)))
                 else
                 AwaitRedesignedImage
                   (setDesignPlan (Some newPlan) now)
                   (Gateway.mkRedesignPayload newPlan (selectedStyle st)
                      (selectedRoomType st) image None)
                   (fun imageOutcome now' =>
                      match imageOutcome with
                      | Return imageBytes =>
                          Done (setIsLoading false
                                  (setGeneratedImage
                                     (Some (dataUrl imageBytes)) now'))
                      | Throw _ =>
                          (* catch with [newPlan] set *)
                          Done (setIsLoading false
                                  (setError (Some imageFailedMessage) now'))
                      end)
             | Throw _ =>
                 (* catch with [newPlan] still null *)
                 Done (setIsLoading false
                         (setError (Some planFailedMessage) now))
             end)
  end.

(** *** Recolor flow: [handleColorChange] *)

Definition recolorFailedMessage : string :=
  "Sorry, I couldn't visualize the new colors. The AI might be busy. Please try selecting them again in a moment.".

(** [{ ...designPlan, wallColor: newColors }] *)
Definition withWallColor (plan : DesignPlan) (newColors : ColorPalette)
    : DesignPlan :=
  mkPlan (analysis plan) (designRationale plan) newColors (lighting plan)
    (flooring plan) (furnitureSuggestions plan) (estimatedCost plan)
    (alternativePalettes plan).

Definition handleColorChange (newColors : ColorPalette) (st : State) : Flow :=
  match designPlan st, uploadedImage st with
  | Some plan, Some image =>
      if negb (truthy image) then Done st
      else
        let updatedPlan := withWallColor plan newColors in
        AwaitRedesignedImage
          (setDesignPlan (Some updatedPlan)
             (setError None (setGeneratedImage None (setIsRegenerating true st))))
          (Gateway.mkRedesignPayload updatedPlan (selectedStyle st)
             (selectedRoomType st) image (Some newColors))
          (fun imageOutcome now =>
             match imageOutcome with
             | Return imageBytes =>
                 Done (setIsRegenerating false
                         (setGeneratedImage (Some (dataUrl imageBytes)) now))
             | Throw _ =>
                 Done (setIsRegenerating false
                         (setError (Some recolorFailedMessage) now))
             end)
  | _, _ => Done st
  end.

(** *** More-palettes flow: [handleSuggestMorePalettes] *)

Definition palettesFailedMessage : string :=
  "Sorry, couldn't fetch more color ideas right now. The AI might be busy. Please try again in a bit.".

(** [{ ...prevPlan, alternativePalettes: palettes }] *)
Definition withAlternativePalettes (plan : DesignPlan)
    (palettes : list ColorPalette) : DesignPlan :=
  mkPlan (analysis plan) (designRationale plan) (wallColor plan)
    (lighting plan) (flooring plan) (furnitureSuggestions plan)
    (estimatedCost plan) palettes.

(** [newPalettes.filter(p => !existingPalettes.includes(JSON.stringify(p)))]
    with [existingPalettes] the serialised palettes of the plan. *)
Definition uniqueNewPalettes (existing newPalettes : list ColorPalette)
    : list ColorPalette :=
  let existingPalettes := map Json.stringify existing in
  filter (fun p => negb (Json.includes existingPalettes (Json.stringify p)))
    newPalettes.

(** The updater passed to [setDesignPlan]. *)
Definition mergePalettes (newPalettes : list ColorPalette)
    (prevPlan : option DesignPlan) : option DesignPlan :=
  match prevPlan with
  | None => None
  | Some prev =>
      Some (withAlternativePalettes prev
              (alternativePalettes prev ++
               uniqueNewPalettes (alternativePalettes prev) newPalettes)%list)
  end.

Definition handleSuggestMorePalettes (st : State) : Flow :=
  match designPlan st with
  | None => Done st
  | Some plan =>
      AwaitMorePalettes
        (setError None (setIsFetchingPalettes true st))
        (Service.mkMorePalettesPayload plan (selectedStyle st))
        (fun outcome now =>
           match outcome with
           | Return newPalettes =>
               Done (setIsFetchingPalettes false
                       (updateDesignPlan (mergePalettes newPalettes) now))
           | Throw _ =>
               Done (setIsFetchingPalettes false
                       (setError (Some palettesFailedMessage) now))
           end)
  end.

(** *** What the component renders of an error *)

Inductive Banner : Type :=
| HardFailure (message : string)
| Warning (message : string).

(** The two places where [error] is rendered: in red on the input form,
    shown when there is no plan and nothing is loading; in yellow above
    the design suggestions, shown when there is a plan. *)
Definition banner (st : State) : option Banner :=
  match designPlan st with
  | Some _ =>
      match error st with
      | Some message => if truthy message then Some (Warning message) else None
      | None => None
      end
  | None =>
      if isLoading st then None
      else
        match error st with
        | Some message =>
            if truthy message then Some (HardFailure message) else None
        | None => None
        end
  end.

(** The design suggestions are rendered exactly when there is a plan. *)
Definition showsPlan (st : State) : option DesignPlan := designPlan st.

End App.

(** ** The whole handler of the gateway *)

Module Endpoint.
Import Js.
Import Gateway.

(** The type the [switch] casts the payload to under each of the three
    action names, the names being tried in turn; under any other name the
    payload is not read. *)
Definition PayloadAfterPalettes (isMorePalettes : bool) : Type :=
  if isMorePalettes then Service.MorePalettesPayload else Datatypes.unit.

Definition PayloadAfterImage (action : string) (isRedesignedImage : bool)
    : Type :=
  if isRedesignedImage then RedesignPayload
  else PayloadAfterPalettes (action =? "generateMorePalettes").

Definition PayloadAfterIdeas (action : string) (isDesignIdeas : bool) : Type :=
  if isDesignIdeas then Service.DesignIdeasPayload
  else PayloadAfterImage action (action =? "generateRedesignedImage").

Definition PayloadOf (action : string) : Type :=
  PayloadAfterIdeas action (action =? "generateDesignIdeas").

(** The body of a request after [request.json()]: [{ action, payload }],
    the payload having the type its action casts it to. *)
Record Action : Type := mkAction {
  action : string;
  payload : PayloadOf action
}.

(** The bodies of the three known actions. *)
Definition GenerateDesignIdeas (p : Service.DesignIdeasPayload) : Action :=
  mkAction "generateDesignIdeas" p.

Definition GenerateRedesignedImage (p : RedesignPayload) : Action :=
  mkAction "generateRedesignedImage" p.

Definition GenerateMorePalettes (p : Service.MorePalettesPayload) : Action :=
  mkAction "generateMorePalettes" p.

(** The names the [switch] of the handler knows. *)
Definition knownAction (action : string) : bool :=
  (action =? "generateDesignIdeas") || (action =? "generateRedesignedImage")
  || (action =? "generateMorePalettes").

(** [switch (action) { case 'generateDesignIdeas': ... case
    'generateRedesignedImage': ... case 'generateMorePalettes': ...
    default: ... }]: the name is compared with each label in turn. *)
Definition switchOn {R : Type} (action : string)
    (caseDesignIdeas : Service.DesignIdeasPayload -> R)
    (caseRedesignedImage : RedesignPayload -> R)
    (caseMorePalettes : Service.MorePalettesPayload -> R)
    (default : R) : PayloadOf action -> R :=
  match action =? "generateDesignIdeas" as b
    return (PayloadAfterIdeas action b -> R)
  with
  | true => caseDesignIdeas
  | false =>
      match action =? "generateRedesignedImage" as b
        return (PayloadAfterImage action b -> R)
      with
      | true => caseRedesignedImage
      | false =>
          match action =? "generateMorePalettes" as b
            return (PayloadAfterPalettes b -> R)
          with
          | true => caseMorePalettes
          | false => fun _ => default
          end
      end
  end.

(** The JSON value a response carries besides its [error] field. *)
Inductive Result : Type :=
| NoResult
| PlanResult (parsedJson : DesignPlan)
| ImageResult (imageBytes : string)
| PalettesResult (parsedJson : list ColorPalette).

(** The generative backend: the call itself, and
    [JSON.parse(response.text.trim())] at the type the schema of each
    action asks for; each of them may throw. *)
Record Backend : Type := mkBackend {
  generateContent : ModelRequest -> Exn GenerateContentResponse;
  parsePlan : GenerateContentResponse -> Exn DesignPlan;
  parsePalettes : GenerateContentResponse -> Exn (list ColorPalette)
}.

(** The [switch (action)] inside the [try]. *)
Definition dispatch (backend : Backend) (body : Action)
    : Exn (Http.Response Result) :=
  switchOn (action body)
    (fun payload =>
       response <- generateContent backend
         (designIdeasRequest (Service.ideas_base64Image payload)
            (Service.ideas_style payload)
            (Some (Service.ideas_dimensions payload))
            (Service.ideas_roomType payload)) ;;
       parsedJson <- parsePlan backend response ;;
       Return (Http.mkResponse 200%Z None (PlanResult parsedJson)))
    (fun payload =>
       response <- generateContent backend
         (redesignedImageRequest (designPlan payload) (style payload)
            (roomType payload) (base64Image payload) (newColors payload)) ;;
       match findImage (firstCandidate response) with
       | Some bytes => Return (Http.mkResponse 200%Z None (ImageResult bytes))
       | None => Throw (errorMessage (firstCandidate response))
       end)
    (fun payload =>
       response <- generateContent backend
         (morePalettesRequest (Service.more_designPlan payload)
            (Service.more_style payload)) ;;
       parsedJson <- parsePalettes backend response ;;
       Return (Http.mkResponse 200%Z None (PalettesResult parsedJson)))
    (Return (Http.mkResponse 400%Z (Some "Invalid action") NoResult))
    (payload body).

(** [handler]: [body] is the outcome of [request.json()], which is
    awaited inside the [try], after the test of the credential. *)
Definition handler (method : string) (API_KEY : option string)
    (backend : Backend) (body : Exn Action) : Http.Response Result :=
  if negb (method =? "POST") then
    Http.mkResponse 405%Z (Some "Method not allowed") NoResult
  else
    try_catch
      (if negb (truthy_opt API_KEY) then
         Throw "API_KEY environment variable is not set."
       else
         requestBody <- body ;;
         dispatch backend requestBody)
      (fun message =>
         Http.mkResponse 500%Z (Some ("Server error: " ++ message)) NoResult).

End Endpoint.

(** ** The second revision of the image case *)

Module Revision2.
Import Js.
Import Gateway.

Definition exteriorTemplate (designPlan : DesignPlan)
    (style primaryColor accentColor furnitureList : string) : string :=
  "Task: Redesign the exterior of this building." ++ nl ++
  "Style: " ++ dq ++ style ++ dq ++ "." ++ nl ++
  "Instructions:" ++ nl ++
  "1. Keep the original building structure (architecture, windows, roof)." ++
  nl ++
  "2. Change main surface color to " ++ dq ++ primaryColor ++ dq ++ "." ++
  nl ++
  "3. Change trim and accent color to " ++ dq ++ accentColor ++ dq ++
  "." ++ nl ++
  "4. Replace landscaping and any movable objects to fit the style. Include: " ++
  furnitureList ++ "." ++ nl ++
  "5. Set lighting to be " ++ dq ++ lighting designPlan ++ dq ++ "." ++
  nl ++
  "Goal: A single, photorealistic image. No text.".

Definition interiorTemplate (designPlan : DesignPlan)
    (style roomType primaryColor accentColor furnitureList : string) : string :=
  "Task: Redesign the interior of this " ++ roomType ++ "." ++ nl ++
  "Style: " ++ dq ++ style ++ dq ++ "." ++ nl ++
  "Instructions:" ++ nl ++
  "1. Keep the original room structure (walls, windows, doors)." ++ nl ++
  "2. Change wall color to " ++ dq ++ primaryColor ++ dq ++ " (main) and " ++
  dq ++ accentColor ++ dq ++ " (accent)." ++ nl ++
  "3. Change flooring to " ++ dq ++ flooring designPlan ++ dq ++ "." ++
  nl ++
  "4. Remove all old furniture." ++ nl ++
  "5. Add new furniture: " ++ furnitureList ++ "." ++ nl ++
  "6. Set lighting to be " ++ dq ++ lighting designPlan ++ dq ++ "." ++
  nl ++
  "Goal: A single, photorealistic image. No text.".

(** The text part, [textPrompt.trim()]: both templates start with a
    letter and end with a period, so that trimming returns them as they
    are. *)
Definition redesignedImagePrompt (designPlan : DesignPlan)
    (style roomType : string) (newColors : option ColorPalette) : string :=
  if isExterior roomType then
    exteriorTemplate designPlan style (primaryColor designPlan newColors)
      (accentColor designPlan newColors) (furnitureList designPlan)
  else
    interiorTemplate designPlan style roomType
      (primaryColor designPlan newColors) (accentColor designPlan newColors)
      (furnitureList designPlan).

Definition noImageMessage : string :=
  "The AI did not return a redesigned image. The response was valid but contained no image data.".

(** The part of the case that follows the backend call: the same scan,
    and one message for every failure. *)
Definition mapRedesignedImage (response : GenerateContentResponse)
    : Exn (Http.Response Http.ImageResult) :=
  let candidate := firstCandidate response in
  match findImage candidate with
  | Some bytes =>
      Return (Http.mkResponse 200%Z None (Http.mkImageResult (Some bytes)))
  | None => Throw noImageMessage
  end.

End Revision2.

(** ** What the component enables while a flow is pending *)

Module Controls.
Import App.

(** [const isButtonDisabled = !uploadedImage || isLoading] *)
Definition isButtonDisabled (st : State) : bool :=
  negb (Js.truthy_opt (uploadedImage st)) || isLoading st.

(** The palette buttons and the button for more palettes:
    [disabled={isRegenerating || isFetchingPalettes}]. *)
Definition palettesDisabled (st : State) : bool :=
  isRegenerating st || isFetchingPalettes st.

(** The messages the component can put in [error]. *)
Definition fixedMessages : list string :=
  [missingInputMessage; imageFailedMessage; planFailedMessage;
   recolorFailedMessage; palettesFailedMessage].

End Controls.

(** * Vocabulary of the properties *)

(** Predicates and functions in which the properties are stated, and the
    sample values on which they are evaluated. *)

Section GatewayVocabulary.
Import Gateway.

(** A decision procedure for [Contains], used to show that a text does not
    occur in a given prompt. *)
Fixpoint prefixb (p s : string) : bool :=
  match p, s with
  | EmptyString, _ => true
  | String a p', String b s' => Ascii.eqb a b && prefixb p' s'
  | String _ _, EmptyString => false
  end.

Fixpoint containsb (sub s : string) : bool :=
  prefixb sub s ||
  match s with
  | EmptyString => false
  | String _ s' => containsb sub s'
  end.

(** The inline image bytes a part contains, if any: [inlineData] is
    present and its [data] is a non-empty string. *)
Definition inlineImageBytes (p : Part) : option string :=
  match inlineData p with
  | Some d =>
      match data d with
      | Some bytes => if Js.truthy bytes then Some bytes else None
      | None => None
      end
  | None => None
  end.


(** [part] is the first of [ps] that contains inline image bytes. *)
Definition FirstImagePart (ps : list Part) (part : Part) : Prop :=
  exists before after : list Part,
    ps = (before ++ part :: after)%list /\
    Forall (fun q => inlineImageBytes q = None) before /\
    inlineImageBytes part <> None.

(** The texts of the parts that carry a non-empty text. *)
Definition textParts (candidate : option Candidate) : list string :=
  match candidateParts candidate with
  | Some ps => Js.filterBoolean (map text ps)
  | None => []
  end.

(** The categories of the ratings marked as blocked, in order. *)
Definition blockedList (candidate : option Candidate) : list string :=
  match candidate with
  | Some c =>
      match safetyRatings c with
      | Some rs => map category (filter isBlocked rs)
      | None => []
      end
  | None => []
  end.

(** The stop reason of a candidate, when it has a non-empty one. *)
Definition stopReason (candidate : option Candidate) : option string :=
  match candidate with
  | Some c =>
      match finishReason c with
      | Some reason => if Js.truthy reason then Some reason else None
      | None => None
      end
  | None => None
  end.

(** The failure message as the specification words it: safety block,
    else returned text, else stop reason, else no candidates. *)
Definition claimedMessage (candidate : option Candidate) : string :=
  match stopReason candidate with
  | Some reason =>
      if reason =? "SAFETY" then
        safetyMessage (Js.join ", " (blockedList candidate))
      else
        match textParts candidate with
        | [] => stopMessage reason
        | texts => textMessage (Js.join " " texts)
        end
  | None =>
      match textParts candidate with
      | [] => noCandidatesMessage
      | texts => textMessage (Js.join " " texts)
      end
  end.

Definition sampleImageResponse : GenerateContentResponse :=
  mkGenResponse (Some [mkCandidate
    (Some (mkContent (Some
       [mkPart (Some "Here is your room.") None;
        mkPart None (Some (mkInlineData (Some "image/png") (Some EmptyString)));
        mkPart None (Some (mkInlineData (Some "image/png") (Some "QUJD")));
        mkPart None (Some (mkInlineData (Some "image/png") (Some "REVG")))])))
    (Some "STOP") None]).

Definition samplePlan : DesignPlan :=
  mkPlan "Bright room." "Balance." (mkPalette "Soft White" "Charcoal Gray")
    "Arched floor lamp" "Light oak"
    [mkFurniture "Sofa" "Plush" "Along the wall" 900 None;
     mkFurniture "Rug" "Wool" "Centre" 200 None]
    (mkCost 1000 3000 "USD")
    [mkPalette "Sage" "Cream"; mkPalette "Navy" "Brass";
     mkPalette "Terracotta" "Sand"].

(** A response whose only candidate has an empty list of parts and no
    stop reason. *)
Definition silentResponse : GenerateContentResponse :=
  mkGenResponse (Some [mkCandidate (Some (mkContent (Some []))) None None]).

(** The example of the specification: a safety block with one blocked and
    one unblocked category. *)
Definition safetyResponse : GenerateContentResponse :=
  mkGenResponse (Some [mkCandidate None (Some "SAFETY")
    (Some [mkRating "VIOLENCE" (Some true); mkRating "SEXUAL" (Some false)])]).

(** Equality of two strings up to the case of their letters. *)
Definition equalIgnoringCase (a b : string) : bool :=
  Js.toLowerCase a =? Js.toLowerCase b.



(** The palette as the specification words it: [newColors ?? wallColor],
    taken as a whole. *)
Definition claimedPalette (plan : DesignPlan)
    (newColors : option ColorPalette) : ColorPalette :=
  match newColors with
  | Some palette => palette
  | None => wallColor plan
  end.

(** The prompt refers to both numbers and to the unit name. *)
Definition MentionsDimensions (w l : Js.JsNumber) (unitName prompt : string)
    : Prop :=
  Contains (Js.toText w) prompt /\
  Contains (Js.toText l) prompt /\
  Contains unitName prompt.

Definition alreadySeen : string :=
  "The user has already seen the following palettes, so please provide completely different options that suggest different moods (e.g., one calming, one energetic, one sophisticated): ".

End GatewayVocabulary.

Section AppVocabulary.
Import App.

Definition readyState : State :=
  mkState "Bedroom" "Modern" (Some "AAAA") (Some "blob:preview")
    (mkDims None None "ft") None None false false false None false.

(** A network on which the plan call answers with the sample plan and
    the image call answers 200 without image bytes. *)
Definition degradedNetwork : Service.Network :=
  Service.mkNetwork
    (fun _ => Js.Return (Http.mkResponse 200%Z None samplePlan))
    (fun _ => Js.Return (Http.mkResponse 200%Z None (Http.mkImageResult None)))
    (fun _ => Js.Throw "Failed to fetch").

Definition plannedState : State :=
  mkState "Bedroom" "Modern" (Some "AAAA") (Some "blob:preview")
    (mkDims None None "ft") (Some samplePlan) (Some "data:old") false false
    false None false.

Definition failingNetwork : Service.Network :=
  Service.mkNetwork
    (fun _ => Js.Throw "Failed to fetch")
    (fun _ => Js.Return (Http.mkResponse 500%Z
                (Some "Server error: The AI did not return a redesigned image.")
                (Http.mkImageResult None)))
    (fun _ => Js.Throw "Failed to fetch").

(** Exact equality of the two fields of two palettes. *)
Definition samePalette (p q : ColorPalette) : bool :=
  (color p =? color q) && (accent p =? accent q).

(** [p] equals, field by field, one of the palettes of [existing]. *)
Definition duplicates (existing : list ColorPalette) (p : ColorPalette) : bool :=
  existsb (samePalette p) existing.

Definition sameKeyOrder (a b : KeyOrder) : bool :=
  match a, b with
  | ColorFirst, ColorFirst => true
  | AccentFirst, AccentFirst => true
  | _, _ => false
  end.

(** Two palettes with the same serialised form: the same two fields,
    with the keys in the same order. *)
Definition sameObject (p q : ColorPalette) : bool :=
  samePalette p q && sameKeyOrder (keyOrder p) (keyOrder q).

(** [p] has the serialised form of one of the palettes of [existing]. *)
Definition serialisedAmong (existing : list ColorPalette) (p : ColorPalette)
    : bool :=
  existsb (sameObject p) existing.

(** A network whose more-palettes call returns the palette Navy and
    Brass, which the sample plan holds, with its keys in the other
    order. *)
Definition swappedNetwork : Service.Network :=
  Service.mkNetwork
    (fun _ => Js.Throw "Failed to fetch")
    (fun _ => Js.Throw "Failed to fetch")
    (fun _ => Js.Return (Http.mkResponse 200%Z None
                [mkPaletteObject "Navy" "Brass" AccentFirst])).

(** A network whose more-palettes call returns one palette already
    among the alternatives, twice a new one, and the wall color. *)
Definition palettesNetwork : Service.Network :=
  Service.mkNetwork
    (fun _ => Js.Throw "Failed to fetch")
    (fun _ => Js.Throw "Failed to fetch")
    (fun _ => Js.Return (Http.mkResponse 200%Z None
                [mkPalette "Navy" "Brass"; mkPalette "Plum" "Gold";
                 mkPalette "Plum" "Gold"; mkPalette "Soft White" "Charcoal Gray"])).

End AppVocabulary.

Section EndpointVocabulary.
Import Gateway.
Import Endpoint.

(** The request an action sends to the backend. *)
Definition actionRequest (body : Action) : option ModelRequest :=
  switchOn (action body)
    (fun payload =>
       Some (designIdeasRequest (Service.ideas_base64Image payload)
               (Service.ideas_style payload)
               (Some (Service.ideas_dimensions payload))
               (Service.ideas_roomType payload)))
    (fun payload =>
       Some (redesignedImageRequest (designPlan payload) (style payload)
               (roomType payload) (base64Image payload) (newColors payload)))
    (fun payload =>
       Some (morePalettesRequest (Service.more_designPlan payload)
               (Service.more_style payload)))
    None
    (payload body).

(** A backend that rejects every call. *)
Definition deadBackend : Backend :=
  mkBackend (fun _ => Js.Throw "quota exceeded")
    (fun _ => Js.Throw "Unexpected end of JSON input")
    (fun _ => Js.Throw "Unexpected end of JSON input").

(** A backend that answers every call with the sample image response and
    whose text does not parse. *)
Definition imageBackend : Backend :=
  mkBackend (fun _ => Js.Return sampleImageResponse)
    (fun _ => Js.Throw "Unexpected token H in JSON at position 0")
    (fun _ => Js.Throw "Unexpected token H in JSON at position 0").

Definition samplePayload : RedesignPayload :=
  mkRedesignPayload samplePlan "Modern" "Bedroom" "AAAA" None.

End EndpointVocabulary.

(** * Properties *)

(** ** Strings *)

Section StringFacts.

Lemma append_assoc (a b c : string) : (a ++ b) ++ c = a ++ (b ++ c).
Proof.
  induction a as [| ch a IH]; simpl; [reflexivity | now rewrite IH].
Qed.

Lemma append_empty_r (a : string) : a ++ EmptyString = a.
Proof.
  induction a as [| ch a IH]; simpl; [reflexivity | now rewrite IH].
Qed.

Lemma append_inv_head (a b c : string) : a ++ b = a ++ c -> b = c.
Proof.
  induction a as [| ch a IH]; simpl; intros H; [exact H |].
  injection H as H. now apply IH.
Qed.

Lemma truthy_true (s : string) : Js.truthy s = true <-> s <> EmptyString.
Proof.
  destruct s; simpl; split; intros H; try discriminate; try reflexivity.
  now contradiction H.
Qed.

Lemma truthy_false (s : string) : Js.truthy s = false <-> s = EmptyString.
Proof.
  destruct s; simpl; split; intros H; try discriminate; reflexivity.
Qed.

Lemma Contains_intro (pre sub post : string) :
  Contains sub (pre ++ sub ++ post).
Proof. now exists pre, post. Qed.

Lemma Contains_append_l (sub pre s : string) :
  Contains sub s -> Contains sub (pre ++ s).
Proof.
  intros (a & b & ->). exists (pre ++ a), b. now rewrite append_assoc.
Qed.

Lemma Contains_append_r (sub s post : string) :
  Contains sub s -> Contains sub (s ++ post).
Proof.
  intros (a & b & ->). exists a, (b ++ post). now rewrite !append_assoc.
Qed.

Lemma Contains_trans_text (a b c : string) :
  Contains a b -> Contains b c -> Contains a c.
Proof.
  intros (p1 & q1 & ->) (p2 & q2 & ->).
  exists (p2 ++ p1), (q1 ++ q2). now rewrite !append_assoc.
Qed.

Lemma Contains_refl (s : string) : Contains s s.
Proof. exists EmptyString, EmptyString. simpl. now rewrite append_empty_r. Qed.

End StringFacts.

Lemma prefixb_append (p post : string) : prefixb p (p ++ post) = true.
Proof.
  induction p as [| a p IH]; simpl; [reflexivity |].
  now rewrite Ascii.eqb_refl, IH.
Qed.


Lemma containsb_unfold (sub s : string) :
  containsb sub s =
  prefixb sub s ||
  match s with
  | EmptyString => false
  | String _ s' => containsb sub s'
  end.
Proof. destruct s; reflexivity. Qed.

Lemma containsb_complete (sub s : string) :
  Contains sub s -> containsb sub s = true.
Proof.
  intros (pre & post & ->).
  induction pre as [| a pre IH].
  - cbn [append]. now rewrite containsb_unfold, prefixb_append.
  - cbn [append]. rewrite containsb_unfold, IH. apply orb_true_r.
Qed.

(** ** Gateway: mapping of the backend response *)

Section ResponseMapping.
Import Gateway.

Lemma scanParts_cons (p : Part) (ps : list Part) :
  scanParts (p :: ps) =
  match inlineImageBytes p with
  | Some bytes => Some bytes
  | None => scanParts ps
  end.
Proof.
  unfold inlineImageBytes. simpl.
  destruct (inlineData p) as [d |]; [| reflexivity].
  destruct (data d) as [b |]; [| reflexivity].
  destruct (Js.truthy b); reflexivity.
Qed.

Lemma scanParts_found (ps : list Part) (bytes : string) :
  scanParts ps = Some bytes ->
  exists part, FirstImagePart ps part /\ inlineImageBytes part = Some bytes.
Proof.
  induction ps as [| p ps IH]; [discriminate |].
  rewrite scanParts_cons.
  destruct (inlineImageBytes p) as [b |] eqn:Ep.
  - intros [= <-]. exists p. split; [| exact Ep].
    exists [], ps. repeat split; [constructor | congruence].
  - intros H. destruct (IH H) as (part & (before & after & -> & Hb & Hp) & Hbytes).
    exists part. split; [| exact Hbytes].
    exists (p :: before), after. repeat split; auto.
Qed.




End ResponseMapping.

Section RedesignedImageHandler.
Import Gateway.

(** The handler on a POST request with the credential set and a backend
    call that returned [response]. *)
Lemma handleRedesignedImage_mapped
    (API_KEY : string) (generateContent : ModelRequest -> Js.Exn GenerateContentResponse)
    (payload : RedesignPayload) (response : GenerateContentResponse) :
  Js.truthy API_KEY = true ->
  generateContent
    (redesignedImageRequest (designPlan payload) (style payload)
       (roomType payload) (base64Image payload) (newColors payload))
  = Js.Return response ->
  handleRedesignedImage "POST" (Some API_KEY) generateContent payload
  = Js.try_catch (mapRedesignedImage response) serverError.
Proof.
  intros Hkey Hcall. unfold handleRedesignedImage.
  cbn [String.eqb Ascii.eqb Bool.eqb negb Js.truthy_opt].
  rewrite Hkey. cbn [negb]. now rewrite Hcall.
Qed.

End RedesignedImageHandler.

Section FailureMessage.
Import Gateway.

Lemma join_truthy (sep x : string) (rest : list string) :
  Js.truthy x = true -> Js.truthy (Js.join sep (x :: rest)) = true.
Proof.
  destruct x as [| c x]; [discriminate |].
  intros _. destruct rest; reflexivity.
Qed.

Lemma filterBoolean_head (l : list (option string)) (x : string) (rest : list string) :
  Js.filterBoolean l = x :: rest -> Js.truthy x = true.
Proof.
  induction l as [| o l IH]; [discriminate |].
  destruct o as [s |]; simpl; [| exact IH].
  destruct (Js.truthy s) eqn:Es; [| exact IH].
  now intros [= <- _].
Qed.

Lemma textParts_head (candidate : option Candidate) (x : string) (rest : list string) :
  textParts candidate = x :: rest -> Js.truthy x = true.
Proof.
  unfold textParts. destruct (candidateParts candidate); [| discriminate].
  apply filterBoolean_head.
Qed.

(** [textResponse] is the placeholder when no part carries text, and the
    texts joined by a space otherwise. *)
Lemma textResponse_spec (candidate : option Candidate) :
  textResponse candidate =
  match textParts candidate with
  | [] => noTextResponse
  | texts => Js.join " " texts
  end.
Proof.
  unfold textResponse.
  destruct (textParts candidate) as [| x rest] eqn:E;
    unfold textParts in E; destruct (candidateParts candidate) as [ps |];
    simpl; try discriminate; try reflexivity.
  - now rewrite E.
  - rewrite E. unfold Js.or_else.
    now rewrite (join_truthy " " x rest (filterBoolean_head _ _ _ E)).
Qed.

Lemma blockedCategories_spec (c : Candidate) :
  blockedCategories (safetyRatings c) =
  Js.or_else (Js.join ", " (blockedList (Some c))) "unknown".
Proof.
  unfold blockedCategories, blockedList.
  destruct (safetyRatings c); reflexivity.
Qed.

Lemma stopReason_safety (candidate : option Candidate) :
  stopReason candidate = Some "SAFETY" <->
  Js.strict_eq_opt
    match candidate with Some c => finishReason c | None => None end
    "SAFETY" = true.
Proof.
  unfold stopReason. destruct candidate as [c |]; [| split; discriminate].
  destruct (finishReason c) as [r |]; [| split; discriminate].
  simpl. split.
  - destruct (Js.truthy r); [| discriminate]. intros [= ->]. reflexivity.
  - intros H. apply String.eqb_eq in H. subst r. reflexivity.
Qed.

End FailureMessage.

Section ImageResult.
Import Gateway.



End ImageResult.

Section FailureMessagePriority.
Import Gateway.

(** C1, as stated, fails: a candidate without image, text and stop
    reason does not produce the no-candidates message. *)
Lemma C1_message_as_claimed_fails :
  ~ (forall response : GenerateContentResponse,
       findImage (firstCandidate response) = None ->
       mapRedesignedImage response
       = Js.Throw (claimedMessage (firstCandidate response))).
Proof.
  intros H. specialize (H silentResponse eq_refl). discriminate H.
Qed.

(** C1 (amended): when the first candidate holds no inline image, the
    handler throws an error whose message is, in this order of priority:
    for the stop reason SAFETY, the safety message listing the categories
    of the ratings marked blocked, in order and separated by commas (the
    word unknown when that list is empty); else, when parts carry
    non-empty text whose space-joined form is not the placeholder, the
    text message quoting that joined text; else, when no part carries
    text and a stop reason is present, the default message followed by
    that reason; else, when there is no candidate, the no-candidates
    message; else the default message alone. *)
Theorem C1_failure_message_priority (response : GenerateContentResponse) :
  let candidate := firstCandidate response in
  let texts := textParts candidate in
  let categories := Js.join ", " (blockedList candidate) in
  findImage candidate = None ->
  exists message : string,
    mapRedesignedImage response = Js.Throw message /\
    (stopReason candidate = Some "SAFETY" -> categories <> EmptyString ->
       message = safetyMessage categories) /\
    (stopReason candidate = Some "SAFETY" -> categories = EmptyString ->
       message = safetyMessage "unknown") /\
    (stopReason candidate <> Some "SAFETY" -> texts <> [] ->
       Js.join " " texts <> noTextResponse ->
       message = textMessage (Js.join " " texts)) /\
    (stopReason candidate <> Some "SAFETY" -> texts = [] ->
       forall reason, stopReason candidate = Some reason ->
       message = stopMessage reason) /\
    (texts = [] -> stopReason candidate = None -> candidate = None ->
       message = noCandidatesMessage) /\
    (texts = [] -> stopReason candidate = None -> candidate <> None ->
       message = defaultMessage).
Proof.
  intros candidate texts categories Hnone.
  exists (errorMessage candidate). split.
  { unfold mapRedesignedImage. fold candidate. now rewrite Hnone. }
  unfold errorMessage.
  rewrite textResponse_spec. fold texts.
  pose proof (stopReason_safety candidate) as Hsafety.
  destruct (Js.strict_eq_opt
              match candidate with Some c => finishReason c | None => None end
              "SAFETY") eqn:Esafe.
  - (* safety block *)
    assert (Hs : stopReason candidate = Some "SAFETY") by now apply Hsafety.
    assert (Hcats : exists c, candidate = Some c).
    { destruct candidate as [c |]; [now exists c | discriminate Hs]. }
    destruct Hcats as [c Hc].
    assert (Hmsg : blockedCategories
                     match candidate with Some c => safetyRatings c | None => None end
                   = Js.or_else categories "unknown").
    { subst categories. rewrite Hc. apply blockedCategories_spec. }
    rewrite Hmsg. unfold Js.or_else.
    repeat split; intros; try congruence.
    + destruct categories; [congruence | reflexivity].
    + now replace categories with EmptyString.
  - assert (Hs : stopReason candidate <> Some "SAFETY").
    { intros Hs. apply Hsafety in Hs. congruence. }
    destruct texts as [| x rest] eqn:Etexts.
    + (* no text *)
      cbn [String.eqb negb]. rewrite String.eqb_refl. cbn [negb].
      unfold stopReason in *. clear Hsafety.
      destruct candidate as [c |]; cbn [Js.truthy_opt Js.isSome negb].
      * destruct (finishReason c) as [r |]; cbn [Js.truthy_opt Js.or_else_opt].
        -- destruct (Js.truthy r) eqn:Er; unfold Js.or_else; rewrite ?Er;
             repeat split; intros; try congruence.
        -- repeat split; intros; try congruence.
      * repeat split; intros; try congruence.
    + (* text returned *)
      destruct (Js.join " " (x :: rest) =? noTextResponse) eqn:Eq.
      * apply String.eqb_eq in Eq.
        cbn [negb]. repeat split; intros; congruence.
      * cbn [negb]. repeat split; intros; try congruence.
Qed.

Lemma C1_failure_message_priority_witness :
  exists message : string,
    mapRedesignedImage safetyResponse = Js.Throw message /\
    message = "Image generation was blocked by safety filters for the following reasons: VIOLENCE.".
Proof.
  destruct (C1_failure_message_priority safetyResponse eq_refl)
    as (message & Hthrow & Hsafe & _).
  exists message. split; [exact Hthrow |].
  apply Hsafe; [reflexivity | discriminate].
Defined.

End FailureMessagePriority.

(** ** Gateway: prompts *)

Section EndsWithFacts.

Lemma EndsWith_refl (s : string) : EndsWith s s.
Proof. now exists EmptyString. Qed.

Lemma EndsWith_append (suffix a s : string) :
  EndsWith suffix s -> EndsWith suffix (a ++ s).
Proof.
  intros [pre ->]. exists (a ++ pre). now rewrite append_assoc.
Qed.

End EndsWithFacts.

Section ImagePrompt.
Import Gateway.

Lemma isExterior_ignoring_case (roomType : string) :
  isExterior roomType = equalIgnoringCase roomType "Exterior".
Proof. reflexivity. Qed.




End ImagePrompt.

Section EffectiveColors.
Import Gateway.

(** C4, as stated, fails: a new palette with an empty color does not
    reach the prompt as a whole. *)
Lemma C4_whole_palette_fails :
  ~ (forall (plan : DesignPlan) (style roomType : string)
            (newColors : option ColorPalette),
       redesignedImagePrompt plan style roomType newColors
       = imagePromptWith plan style roomType
           (color (claimedPalette plan newColors))
           (accent (claimedPalette plan newColors))).
Proof.
  intros H.
  specialize (H samplePlan "Modern" "Exterior"
                (Some (mkPalette EmptyString "Gold"))).
  apply String.eqb_eq in H. vm_compute in H. discriminate H.
Qed.

(** C4 (amended): the image prompt is built from a primary and an accent
    color resolved field by field: without new colors both come from the
    wall color of the plan; with new colors, each field of the new
    palette is used when it is not the empty string, and the matching
    field of the wall color of the plan is used when it is. *)
Theorem C4_effective_colors (plan : DesignPlan) (style roomType : string)
    (newColors : option ColorPalette) :
  exists primary secondary : string,
    redesignedImagePrompt plan style roomType newColors
    = imagePromptWith plan style roomType primary secondary /\
    (newColors = None ->
       primary = color (wallColor plan) /\
       secondary = accent (wallColor plan)) /\
    (forall palette, newColors = Some palette ->
       (color palette <> EmptyString -> primary = color palette) /\
       (color palette = EmptyString -> primary = color (wallColor plan)) /\
       (accent palette <> EmptyString -> secondary = accent palette) /\
       (accent palette = EmptyString -> secondary = accent (wallColor plan))).
Proof.
  exists (primaryColor plan newColors), (accentColor plan newColors).
  split; [reflexivity |].
  unfold primaryColor, accentColor.
  split.
  - intros ->. split; reflexivity.
  - intros palette ->. cbn [option_map Js.or_else_opt]. unfold Js.or_else.
    repeat split; intros H.
    + apply truthy_true in H. now rewrite H.
    + now rewrite H.
    + apply truthy_true in H. now rewrite H.
    + now rewrite H.
Qed.

End EffectiveColors.

Section PlanPrompt.
Import Gateway.

(** C5, as stated, fails: a width of zero (falsy, printed 0) is a number
    that is present, yet the prompt has no dimension clause. *)
Lemma C5_present_zero_fails :
  ~ (forall (style roomType : string) (d : RoomDimensions) (w l : Js.JsNumber),
       width d = Some w -> length d = Some l ->
       MentionsDimensions w l
         (if unit d =? "ft" then "feet" else "meters")
         (designIdeasPrompt style (Some d) roomType)).
Proof.
  intros H.
  destruct (H "Modern" "Bedroom"
              (mkDims (Some (Js.mkNumber false "0")) (Some (Js.mkNumber true "12")) "ft")
              (Js.mkNumber false "0") (Js.mkNumber true "12") eq_refl eq_refl)
    as (_ & _ & Hunit).
  apply containsb_complete in Hunit. vm_compute in Hunit. discriminate Hunit.
Qed.

Lemma designIdeasText_contains (style roomType clause : string) :
  Contains clause (designIdeasText style roomType clause).
Proof.
  unfold designIdeasText.
  do 11 apply Contains_append_l.
  apply Contains_append_r. apply Contains_refl.
Qed.

Lemma dimensionClause_contains (w l : Js.JsNumber) (unitName : string) :
  Contains
    (Js.toText w ++ " " ++ unitName ++ " wide by " ++
     Js.toText l ++ " " ++ unitName ++ " long")
    (dimensionClause w l unitName).
Proof.
  unfold dimensionClause.
  exists " The user has specified the room is approximately ",
    ". Please ensure your furniture suggestions and layout advice are appropriately scaled for a room of this size and explicitly mention this in your analysis.".
  rewrite !append_assoc. reflexivity.
Qed.

End PlanPrompt.

Section DimensionClause.
Import Gateway.

Lemma dimensionText_present (d : RoomDimensions) (w l : Js.JsNumber) :
  width d = Some w -> length d = Some l ->
  Js.toBoolean w = true -> Js.toBoolean l = true ->
  dimensionText (Some d)
  = dimensionClause w l (if unit d =? "ft" then "feet" else "meters").
Proof.
  intros Hw Hl Hw0 Hl0. unfold dimensionText, JsNum.truthy.
  now rewrite Hw, Hl, Hw0, Hl0.
Qed.

Lemma dimensionText_absent (dimensions : option RoomDimensions) :
  (forall d, dimensions = Some d ->
     JsNum.truthy_dim (width d) = false \/ JsNum.truthy_dim (length d) = false) ->
  dimensionText dimensions = EmptyString.
Proof.
  intros H. destruct dimensions as [d |]; [| reflexivity].
  unfold dimensionText.
  destruct (H d eq_refl) as [Hw | Hl].
  - destruct (width d) as [w |]; [| reflexivity].
    simpl in Hw. rewrite Hw. now destruct (length d).
  - destruct (length d) as [l |]; [| now destruct (width d)].
    simpl in Hl. rewrite Hl.
    destruct (width d); [| reflexivity].
    now rewrite andb_false_r.
Qed.

(** C5 (amended): when the dimensions carry a width and a length that
    are both truthy numbers (any number but 0, -0 and NaN), the prompt of
    the plan generation contains the clause that gives the width and the
    length as JavaScript prints them, each followed by the unit name,
    which is feet for the unit ft and meters for any other unit.  When the
    dimensions are missing, or the width or the length is empty or a falsy
    number such as zero, the prompt is the text with an empty dimension
    clause, whatever the other fields hold. *)
Theorem C5_dimension_clause (style roomType : string)
    (dimensions : option RoomDimensions) :
  let prompt := designIdeasPrompt style dimensions roomType in
  (forall d w l,
     dimensions = Some d -> width d = Some w -> length d = Some l ->
     Js.toBoolean w = true -> Js.toBoolean l = true ->
     (unit d = "ft" ->
        Contains (Js.toText w ++ " feet wide by " ++
                  Js.toText l ++ " feet long") prompt) /\
     (unit d <> "ft" ->
        Contains (Js.toText w ++ " meters wide by " ++
                  Js.toText l ++ " meters long") prompt)) /\
  ((forall d, dimensions = Some d ->
      width d = None \/ length d = None \/
      (exists w, width d = Some w /\ Js.toBoolean w = false) \/
      (exists l, length d = Some l /\ Js.toBoolean l = false)) ->
   prompt = designIdeasText style roomType EmptyString).
Proof.
  intros prompt. subst prompt. unfold designIdeasPrompt. split.
  - intros d w l -> Hw Hl Hw0 Hl0.
    rewrite (dimensionText_present d w l Hw Hl Hw0 Hl0).
    pose proof (dimensionClause_contains w l
                  (if unit d =? "ft" then "feet" else "meters")) as Hc.
    split; intros Hunit.
    + rewrite Hunit in *. cbn [String.eqb Ascii.eqb Bool.eqb andb] in Hc.
      destruct Hc as (pre & post & Hc).
      eapply Contains_trans_text; [| apply designIdeasText_contains].
      exists pre, post. exact Hc.
    + apply String.eqb_neq in Hunit. rewrite Hunit in *.
      destruct Hc as (pre & post & Hc).
      eapply Contains_trans_text; [| apply designIdeasText_contains].
      exists pre, post. exact Hc.
  - intros H. rewrite dimensionText_absent; [reflexivity |].
    intros d Hd.
    destruct (H d Hd) as [Hn | [Hn | [(w & Hn & Hw) | (l & Hn & Hl)]]];
      rewrite Hn; cbn [JsNum.truthy_dim JsNum.truthy]; auto.
Qed.

End DimensionClause.

Section MorePalettesPrompt.
Import Gateway.

(** The listing of the palettes stands right after the sentence that
    declares them already seen. *)
Lemma morePalettesPrompt_listing (plan : DesignPlan) (style : string) :
  exists before after : string,
    morePalettesPrompt plan style
    = before ++ alreadySeen ++ existingPalettes plan ++ after.
Proof.
  unfold morePalettesPrompt, morePalettesText.
  exists ("You are an AI color consultant for an interior design app. Based on the following design analysis for a " ++
          Js.dq ++ style ++ Js.dq ++
          " themed room, please generate exactly 3 new and distinct color palettes. **Design Analysis:** " ++
          analysis plan ++ " **Important:** ").
  eexists.
  rewrite !append_assoc. reflexivity.
Qed.

(** Every line of a joined list occurs in the joined text. *)
Lemma join_contains (sep x : string) (l : list string) :
  In x l -> Contains x (Js.join sep l).
Proof.
  induction l as [| y l IH]; [contradiction |].
  intros [-> | Hin].
  - destruct l as [| z l]; [apply Contains_refl |].
    exists EmptyString, (sep ++ Js.join sep (z :: l)). reflexivity.
  - destruct l as [| z l]; [contradiction |].
    change (Js.join sep (y :: z :: l)) with (y ++ sep ++ Js.join sep (z :: l)).
    do 2 apply Contains_append_l. now apply IH.
Qed.

(** C8: for a plan with wall color P0 and alternative palettes P1, P2,
    P3, the prompt of the more-palettes operation holds, right after the
    sentence telling that the user has already seen the following
    palettes, the four palettes in the order P0, P1, P2, P3, one per
    line, each as a dash, its color, an ampersand and its accent. *)
Theorem C8_excluded_palettes (plan : DesignPlan) (style : string)
    (P1 P2 P3 : ColorPalette) :
  alternativePalettes plan = [P1; P2; P3] ->
  let P0 := wallColor plan in
  let line := fun p : ColorPalette => "- " ++ color p ++ " & " ++ accent p in
  let prompt := morePalettesPrompt plan style in
  (exists before after : string,
     prompt = before ++ alreadySeen ++
              (line P0 ++ Js.nl ++ line P1 ++ Js.nl ++ line P2 ++ Js.nl ++ line P3) ++
              after) /\
  Contains (line P0) prompt /\ Contains (line P1) prompt /\
  Contains (line P2) prompt /\ Contains (line P3) prompt.
Proof.
  intros Halt P0 line prompt.
  destruct (morePalettesPrompt_listing plan style) as (before & after & E).
  assert (Hlist : existingPalettes plan
                  = line P0 ++ Js.nl ++ line P1 ++ Js.nl ++ line P2 ++ Js.nl ++ line P3).
  { unfold existingPalettes. rewrite Halt. reflexivity. }
  split.
  { exists before, after. subst prompt. rewrite E, Hlist. reflexivity. }
  assert (Hin : forall p, In p [P0; P1; P2; P3] -> Contains (line p) prompt).
  { intros p Hp. subst prompt. rewrite E.
    apply Contains_append_l, Contains_append_l, Contains_append_r.
    unfold existingPalettes. rewrite Halt.
    apply join_contains. change (line p) with (paletteLine p).
    now apply in_map. }
  repeat split; apply Hin; simpl; auto.
Qed.

Lemma C8_excluded_palettes_witness :
  Contains "- Soft White & Charcoal Gray" (morePalettesPrompt samplePlan "Modern") /\
  Contains "- Terracotta & Sand" (morePalettesPrompt samplePlan "Modern").
Proof.
  pose proof (C8_excluded_palettes samplePlan "Modern"
                (mkPalette "Sage" "Cream") (mkPalette "Navy" "Brass")
                (mkPalette "Terracotta" "Sand") eq_refl)
    as (_ & H0 & _ & _ & H3).
  split; [exact H0 | exact H3].
Defined.

End MorePalettesPrompt.

(** ** JSON serialisation is injective on palettes *)

Section JsonFacts.
Import Json.

Lemma readChar_escapeChar (c : ascii) (rest : string) :
  readChar (escapeChar c ++ rest) = Some (c, rest).
Proof.
  destruct c as [b0 b1 b2 b3 b4 b5 b6 b7].
  destruct b0, b1, b2, b3, b4, b5, b6, b7; reflexivity.
Qed.

Lemma readChar_quote (rest : string) : readChar (Js.dq ++ rest) = None.
Proof. reflexivity. Qed.

(** An escaped text followed by a quote determines the text and what
    follows the quote. *)
Lemma escape_terminated_inj (s1 s2 r1 r2 : string) :
  escape s1 ++ Js.dq ++ r1 = escape s2 ++ Js.dq ++ r2 ->
  s1 = s2 /\ r1 = r2.
Proof.
  revert s2. induction s1 as [| c1 s1 IH]; intros [| c2 s2] H;
    cbn [escape append] in H; rewrite ?append_assoc in H.
  - split; [reflexivity |]. now apply append_inv_head in H.
  - apply (f_equal readChar) in H.
    rewrite readChar_escapeChar in H. discriminate H.
  - apply (f_equal readChar) in H.
    rewrite readChar_escapeChar in H. discriminate H.
  - apply (f_equal readChar) in H.
    rewrite !readChar_escapeChar in H. injection H as -> H.
    destruct (IH _ H) as [-> ->]. now split.
Qed.

Lemma stringify_inj (p q : ColorPalette) :
  stringify p = stringify q -> p = q.
Proof.
  destruct p as [c1 a1 o1], q as [c2 a2 o2].
  unfold stringify, stringifyString. cbn [color accent keyOrder].
  destruct o1, o2; rewrite !append_assoc; intros H.
  - do 6 apply append_inv_head in H.
    apply escape_terminated_inj in H as [-> H].
    do 6 apply append_inv_head in H.
    apply escape_terminated_inj in H as [-> _].
    reflexivity.
  - do 2 apply append_inv_head in H. discriminate H.
  - do 2 apply append_inv_head in H. discriminate H.
  - do 6 apply append_inv_head in H.
    apply escape_terminated_inj in H as [-> H].
    do 6 apply append_inv_head in H.
    apply escape_terminated_inj in H as [-> _].
    reflexivity.
Qed.

End JsonFacts.

(** ** Client orchestrator *)

Section PrimaryFlow.
Import App.

(** The first suspension of the primary flow once the guard on the
    inputs has passed. *)
Lemma handleGenerateClick_guard (st : State) (image : string) :
  uploadedImage st = Some image ->
  image <> EmptyString -> selectedStyle st <> EmptyString ->
  selectedRoomType st <> EmptyString ->
  Js.truthy image = true /\ Js.truthy (selectedStyle st) = true /\
  Js.truthy (selectedRoomType st) = true.
Proof.
  intros _ Hi Hs Hr. repeat split; now apply truthy_true.
Qed.

(** C3: in the primary flow, started with an image, a style and a room
    type, for every outcome of the two calls: when the plan call returns
    a plan and the image call fails, the final state holds that plan and
    the message that the plan was created but the room could not be
    visualised, rendered as a warning next to the plan, and loading has
    ended; when both calls succeed the final state holds the plan, the
    image and no error; when the plan call fails the final state holds no
    plan and the message that no plan could be generated, rendered as a
    hard failure on the input form. *)
Theorem C3_partial_success_keeps_plan
    (st : State) (net : Service.Network) (image : string) :
  uploadedImage st = Some image ->
  image <> EmptyString -> selectedStyle st <> EmptyString ->
  selectedRoomType st <> EmptyString ->
  let planOutcome :=
    Service.generateDesignIdeas
      (Service.fetchDesignIdeas net
         (Service.mkDesignIdeasPayload image (selectedStyle st)
            (roomDimensions st) (selectedRoomType st))) in
  let imageOutcome := fun plan =>
    Service.generateRedesignedImage
      (Service.fetchRedesignedImage net
         (Gateway.mkRedesignPayload plan (selectedStyle st)
            (selectedRoomType st) image None)) in
  let final := run net (handleGenerateClick st) in
  (forall plan message,
     planOutcome = Js.Return plan -> imageOutcome plan = Js.Throw message ->
     designPlan final = Some plan /\
     error final = Some imageFailedMessage /\
     banner final = Some (Warning imageFailedMessage) /\
     generatedImage final = None /\ isLoading final = false) /\
  (forall plan bytes,
     planOutcome = Js.Return plan -> imageOutcome plan = Js.Return bytes ->
     designPlan final = Some plan /\ error final = None /\
     banner final = None /\
     generatedImage final = Some (dataUrl bytes) /\ isLoading final = false) /\
  (forall message,
     planOutcome = Js.Throw message ->
     designPlan final = None /\
     error final = Some planFailedMessage /\
     banner final = Some (HardFailure planFailedMessage) /\
     generatedImage final = None /\ isLoading final = false).
Proof.
  intros Himage Hi Hs Hr planOutcome imageOutcome final.
  destruct (handleGenerateClick_guard st image Himage Hi Hs Hr)
    as (Ti & Ts & Tr).
  subst final. unfold handleGenerateClick.
  rewrite Himage, Ti, Ts, Tr. cbn [negb orb run].
  fold planOutcome.
  split; [| split].
  - intros plan message Hplan Himg. rewrite Hplan.
    cbn [negb run]. fold (imageOutcome plan). rewrite Himg.
    repeat split.
  - intros plan bytes Hplan Himg. rewrite Hplan.
    cbn [negb run]. fold (imageOutcome plan). rewrite Himg.
    repeat split.
  - intros message Hplan. rewrite Hplan. repeat split.
Qed.

Lemma C3_partial_success_keeps_plan_witness :
  let final := run degradedNetwork (handleGenerateClick readyState) in
  designPlan final = Some samplePlan /\
  error final = Some imageFailedMessage /\
  banner final = Some (Warning imageFailedMessage) /\
  generatedImage final = None /\ isLoading final = false.
Proof.
  refine (proj1
    (C3_partial_success_keeps_plan readyState degradedNetwork "AAAA"
       eq_refl _ _ _)
    samplePlan Service.noImageData eq_refl eq_refl); discriminate.
Defined.

End PrimaryFlow.

Section RecolorFlow.
Import App.

(** C6: in the recolor flow, started on a plan and an uploaded image with
    the palette P_new, the state left while the image call is pending
    already holds the plan with its wall color set to P_new, every other
    field of the plan being as before, and the call is issued with that
    plan and P_new as new colors; at the end of the flow the state holds
    this same plan, whether the image call succeeded or failed, and on
    failure it also holds the recolor error message and no image. *)
Theorem C6_recolor_keeps_new_color
    (st : State) (net : Service.Network) (plan : DesignPlan)
    (image : string) (P_new : ColorPalette) :
  designPlan st = Some plan ->
  uploadedImage st = Some image -> image <> EmptyString ->
  let flow := handleColorChange P_new st in
  let final := run net flow in
  exists updated : DesignPlan,
    wallColor updated = P_new /\
    (analysis updated = analysis plan /\
     designRationale updated = designRationale plan /\
     lighting updated = lighting plan /\
     flooring updated = flooring plan /\
     furnitureSuggestions updated = furnitureSuggestions plan /\
     estimatedCost updated = estimatedCost plan /\
     alternativePalettes updated = alternativePalettes plan) /\
    (exists k,
       flow = AwaitRedesignedImage (committed flow)
                (Gateway.mkRedesignPayload updated (selectedStyle st)
                   (selectedRoomType st) image (Some P_new)) k) /\
    designPlan (committed flow) = Some updated /\
    designPlan final = Some updated /\
    (forall message,
       Service.generateRedesignedImage
         (Service.fetchRedesignedImage net
            (Gateway.mkRedesignPayload updated (selectedStyle st)
               (selectedRoomType st) image (Some P_new)))
       = Js.Throw message ->
       error final = Some recolorFailedMessage /\
       generatedImage final = None /\ isRegenerating final = false).
Proof.
  intros Hplan Himage Hi flow final.
  apply truthy_true in Hi.
  exists (withWallColor plan P_new).
  subst final flow. unfold handleColorChange.
  rewrite Hplan, Himage, Hi. cbn [negb committed run].
  split; [reflexivity |]. split; [repeat split |].
  split; [eexists; reflexivity |]. split; [reflexivity |].
  split.
  - destruct (Service.generateRedesignedImage _); reflexivity.
  - intros message ->. repeat split.
Qed.

Lemma C6_recolor_keeps_new_color_witness :
  exists updated : DesignPlan,
    wallColor updated = mkPalette "Navy" "Brass" /\
    designPlan (run failingNetwork
                  (handleColorChange (mkPalette "Navy" "Brass") plannedState))
    = Some updated /\
    error (run failingNetwork
             (handleColorChange (mkPalette "Navy" "Brass") plannedState))
    = Some recolorFailedMessage.
Proof.
  destruct (C6_recolor_keeps_new_color plannedState failingNetwork samplePlan
              "AAAA" (mkPalette "Navy" "Brass") eq_refl eq_refl)
    as (updated & Hwall & _ & _ & _ & Hfinal & Hfail);
    [discriminate |].
  exists updated. split; [exact Hwall |]. split; [exact Hfinal |].
  refine (proj1 (Hfail "Server error: The AI did not return a redesigned image." _)).
  reflexivity.
Defined.

End RecolorFlow.

Section MorePalettesFlow.
Import App.

Lemma sameObject_eq (p q : ColorPalette) : sameObject p q = true <-> p = q.
Proof.
  destruct p as [c1 a1 o1], q as [c2 a2 o2]. unfold sameObject, samePalette.
  cbn [color accent keyOrder].
  rewrite !andb_true_iff, !String.eqb_eq. split.
  - intros [[-> ->] H]. destruct o1, o2; try discriminate H; reflexivity.
  - intros [= -> -> ->]. repeat split. now destruct o2.
Qed.

Lemma serialisedAmong_In (existing : list ColorPalette) (p : ColorPalette) :
  serialisedAmong existing p = true <-> In p existing.
Proof.
  unfold serialisedAmong. rewrite existsb_exists. split.
  - intros (q & Hq & Hsame). apply sameObject_eq in Hsame. now subst q.
  - intros Hin. exists p. split; [exact Hin | now apply sameObject_eq].
Qed.

(** The comparison of serialised forms decides whether the fields and the
    order of the keys are the same. *)
Lemma includes_stringify (existing : list ColorPalette) (p : ColorPalette) :
  Json.includes (map Json.stringify existing) (Json.stringify p)
  = serialisedAmong existing p.
Proof.
  apply eq_true_iff_eq. rewrite serialisedAmong_In.
  unfold Json.includes. rewrite existsb_exists. split.
  - intros (s & Hs & Heq). apply String.eqb_eq in Heq. subst s.
    apply in_map_iff in Hs as (q & Hq & Hin).
    apply stringify_inj in Hq. now subst q.
  - intros Hin. exists (Json.stringify p).
    split; [now apply in_map | apply String.eqb_refl].
Qed.

Lemma uniqueNewPalettes_spec (existing newPalettes : list ColorPalette) :
  uniqueNewPalettes existing newPalettes
  = filter (fun p => negb (serialisedAmong existing p)) newPalettes.
Proof.
  unfold uniqueNewPalettes. apply filter_ext.
  intros p. now rewrite includes_stringify.
Qed.

Lemma filter_all_duplicates (existing newPalettes : list ColorPalette) :
  (forall p, In p newPalettes -> In p existing) ->
  filter (fun p => negb (serialisedAmong existing p)) newPalettes = [].
Proof.
  intros H. induction newPalettes as [| p l IH]; [reflexivity |].
  cbn [filter].
  assert (Hd : serialisedAmong existing p = true).
  { apply serialisedAmong_In, H. now left. }
  rewrite Hd. cbn [negb]. apply IH. intros q Hq. apply H. now right.
Qed.

(** C7, as stated, fails: a returned palette whose fields equal those of
    an existing palette, but whose keys come in the other order, is
    appended. *)
Lemma C7_field_duplicate_is_appended :
  ~ (forall (st : State) (net : Service.Network) (plan : DesignPlan)
            (newPalettes : list ColorPalette),
       designPlan st = Some plan ->
       Service.generateMorePalettes
         (Service.fetchMorePalettes net
            (Service.mkMorePalettesPayload plan (selectedStyle st)))
       = Js.Return newPalettes ->
       (forall p, In p newPalettes ->
                  duplicates (alternativePalettes plan) p = true) ->
       exists merged : DesignPlan,
         designPlan (run net (handleSuggestMorePalettes st)) = Some merged /\
         alternativePalettes merged = alternativePalettes plan).
Proof.
  intros H.
  destruct (H plannedState swappedNetwork samplePlan
              [mkPaletteObject "Navy" "Brass" AccentFirst] eq_refl eq_refl)
    as (merged & Hfinal & Halt).
  { intros p [<- | []]. reflexivity. }
  vm_compute in Hfinal. injection Hfinal as <-.
  vm_compute in Halt. discriminate Halt.
Qed.

(** C7 (amended): when the more-palettes call returns, the plan of the
    final state is the plan of the current state with its alternative
    palettes followed by the returned palettes that do not have the
    serialised form of one of those alternative palettes (the same color
    and accent with the keys in the same order), in the order of the
    response; the existing palettes stay where they are and every other
    field of the plan is unchanged.  When every returned palette has the
    serialised form of an existing one, the alternative palettes are
    unchanged. *)
Theorem C7_merge_more_palettes
    (st : State) (net : Service.Network) (plan : DesignPlan)
    (newPalettes : list ColorPalette) :
  designPlan st = Some plan ->
  Service.generateMorePalettes
    (Service.fetchMorePalettes net
       (Service.mkMorePalettesPayload plan (selectedStyle st)))
  = Js.Return newPalettes ->
  let existing := alternativePalettes plan in
  let final := run net (handleSuggestMorePalettes st) in
  exists merged : DesignPlan,
    designPlan final = Some merged /\
    alternativePalettes merged
    = (existing ++
       filter (fun p => negb (serialisedAmong existing p)) newPalettes)%list /\
    (forall p,
       serialisedAmong existing p = true <->
       exists q, In q existing /\ color q = color p /\ accent q = accent p /\
                 keyOrder q = keyOrder p) /\
    (forall p, In p newPalettes -> serialisedAmong existing p = false ->
               In p (alternativePalettes merged)) /\
    (forall i p, nth_error existing i = Some p ->
                 nth_error (alternativePalettes merged) i = Some p) /\
    ((forall p, In p newPalettes -> serialisedAmong existing p = true) ->
     alternativePalettes merged = existing) /\
    (analysis merged = analysis plan /\
     designRationale merged = designRationale plan /\
     wallColor merged = wallColor plan /\
     lighting merged = lighting plan /\
     flooring merged = flooring plan /\
     furnitureSuggestions merged = furnitureSuggestions plan /\
     estimatedCost merged = estimatedCost plan).
Proof.
  intros Hplan Hcall existing final.
  exists (withAlternativePalettes plan
            (existing ++
             filter (fun p => negb (serialisedAmong existing p)) newPalettes)).
  split.
  { subst final. unfold handleSuggestMorePalettes.
    rewrite Hplan. cbn [run]. rewrite Hcall.
    cbn [run designPlan setIsFetchingPalettes updateDesignPlan setDesignPlan
           setError mergePalettes].
    rewrite Hplan. cbn [mergePalettes].
    now rewrite uniqueNewPalettes_spec. }
  cbn [withAlternativePalettes alternativePalettes analysis designRationale
         wallColor lighting flooring furnitureSuggestions estimatedCost].
  split; [reflexivity |].
  split.
  { intros p. rewrite serialisedAmong_In. split.
    - intros Hin. now exists p.
    - intros (q & Hin & Hc & Ha & Ho).
      destruct p as [c a o], q as [c' a' o']. cbn in Hc, Ha, Ho.
      now subst. }
  split.
  { intros p Hin Hnew. apply in_or_app. right.
    apply filter_In. split; [exact Hin | now rewrite Hnew]. }
  split.
  { intros i p Hnth. rewrite nth_error_app1; [exact Hnth |].
    apply nth_error_Some. congruence. }
  split.
  { intros Hall. rewrite filter_all_duplicates; [apply app_nil_r |].
    intros p Hin. now apply serialisedAmong_In, Hall. }
  repeat split.
Qed.

Lemma C7_merge_more_palettes_witness :
  exists merged : DesignPlan,
    designPlan (run palettesNetwork (handleSuggestMorePalettes plannedState))
    = Some merged /\
    alternativePalettes merged
    = [mkPalette "Sage" "Cream"; mkPalette "Navy" "Brass";
       mkPalette "Terracotta" "Sand"; mkPalette "Plum" "Gold";
       mkPalette "Plum" "Gold"; mkPalette "Soft White" "Charcoal Gray"].
Proof.
  destruct (C7_merge_more_palettes plannedState palettesNetwork samplePlan
              [mkPalette "Navy" "Brass"; mkPalette "Plum" "Gold";
               mkPalette "Plum" "Gold"; mkPalette "Soft White" "Charcoal Gray"]
              eq_refl eq_refl)
    as (merged & Hfinal & Halt & _).
  exists merged. split; [exact Hfinal | exact Halt].
Defined.

End MorePalettesFlow.

(** ** Client service *)

Section ClientImage.
Import App.

(** C10: on a response with status 200 the client wrapper throws the
    error that the API response did not include image data when the
    image bytes are absent or the empty string, and returns the image
    bytes when they are a non-empty string; it returns a value only in
    that last case.  In the primary flow such a 200 response without
    image bytes ends like a failed image call: the plan is kept and the
    image error message is set. *)
Theorem C10_client_requires_image_bytes
    (error200 : option string) (body : Http.ImageResult) :
  let fetched := Js.Return (Http.mkResponse 200%Z error200 body) in
  (Http.imageBytes body = None \/ Http.imageBytes body = Some EmptyString ->
     Service.generateRedesignedImage fetched
     = Js.Throw "API response did not include image data.") /\
  (forall bytes, Http.imageBytes body = Some bytes -> bytes <> EmptyString ->
     Service.generateRedesignedImage fetched = Js.Return bytes) /\
  (forall bytes, Service.generateRedesignedImage fetched = Js.Return bytes ->
     Http.imageBytes body = Some bytes /\ bytes <> EmptyString) /\
  (forall (st : State) (net : Service.Network) (image : string) (plan : DesignPlan),
     uploadedImage st = Some image ->
     image <> EmptyString -> selectedStyle st <> EmptyString ->
     selectedRoomType st <> EmptyString ->
     Service.generateDesignIdeas
       (Service.fetchDesignIdeas net
          (Service.mkDesignIdeasPayload image (selectedStyle st)
             (roomDimensions st) (selectedRoomType st)))
     = Js.Return plan ->
     Service.fetchRedesignedImage net
       (Gateway.mkRedesignPayload plan (selectedStyle st)
          (selectedRoomType st) image None)
     = fetched ->
     Http.imageBytes body = None \/ Http.imageBytes body = Some EmptyString ->
     designPlan (run net (handleGenerateClick st)) = Some plan /\
     App.error (run net (handleGenerateClick st)) = Some imageFailedMessage).
Proof.
  intros fetched.
  assert (Hthrow :
    Http.imageBytes body = None \/ Http.imageBytes body = Some EmptyString ->
    Service.generateRedesignedImage fetched = Js.Throw Service.noImageData).
  { subst fetched.
    unfold Service.generateRedesignedImage, Service.callApi. simpl.
    intros [-> | ->]; reflexivity. }
  split; [exact Hthrow |].
  split; [| split].
  - intros bytes Hb Hne. subst fetched.
    unfold Service.generateRedesignedImage, Service.callApi. simpl.
    rewrite Hb. apply truthy_true in Hne. now rewrite Hne.
  - subst fetched.
    unfold Service.generateRedesignedImage, Service.callApi. simpl.
    destruct (Http.imageBytes body) as [b |]; [| discriminate].
    destruct (Js.truthy b) eqn:Eb; [| discriminate].
    intros bytes [= <-]. split; [reflexivity | now apply truthy_true].
  - intros st net image plan Himage Hi Hs Hr Hplan Hfetch Hempty.
    destruct (handleGenerateClick_guard st image Himage Hi Hs Hr)
      as (Ti & Ts & Tr).
    unfold handleGenerateClick.
    rewrite Himage, Ti, Ts, Tr. cbn [negb orb run].
    rewrite Hplan. cbn [negb run]. rewrite Hfetch, (Hthrow Hempty).
    split; reflexivity.
Qed.

End ClientImage.

(** ** The whole handler *)

Section EndpointFacts.
Import Gateway.
Import Endpoint.

Lemma scanParts_truthy (ps : list Part) (bytes : string) :
  scanParts ps = Some bytes -> bytes <> EmptyString.
Proof.
  intros H. destruct (scanParts_found ps bytes H) as (part & _ & Hb).
  unfold inlineImageBytes in Hb.
  destruct (inlineData part) as [d |]; [| discriminate].
  destruct (data d) as [b |]; [| discriminate].
  destruct (Js.truthy b) eqn:Eb; [| discriminate].
  injection Hb as <-. now apply truthy_true.
Qed.

Lemma findImage_truthy (candidate : option Candidate) (bytes : string) :
  findImage candidate = Some bytes -> bytes <> EmptyString.
Proof.
  unfold findImage. destruct (candidateParts candidate); [| discriminate].
  apply scanParts_truthy.
Qed.

Ltac run_switch :=
  unfold dispatch;
  cbn [Endpoint.action Endpoint.payload GenerateDesignIdeas
         GenerateRedesignedImage GenerateMorePalettes];
  cbn [switchOn String.eqb Ascii.eqb Bool.eqb].

(** Under a name the [switch] does not know, the default case is taken. *)
Lemma switchOn_default (R : Type) (body : Action)
    (caseDesignIdeas : Service.DesignIdeasPayload -> R)
    (caseRedesignedImage : RedesignPayload -> R)
    (caseMorePalettes : Service.MorePalettesPayload -> R) (default : R) :
  knownAction (action body) = false ->
  switchOn (action body) caseDesignIdeas caseRedesignedImage caseMorePalettes
    default (payload body)
  = default.
Proof.
  destruct body as [name p]. cbn [action payload]. unfold knownAction.
  intros H. apply orb_false_elim in H as [H H3].
  apply orb_false_elim in H as [H1 H2].
  revert p. unfold PayloadOf, switchOn.
  rewrite H1. cbn [PayloadAfterIdeas].
  rewrite H2. cbn [PayloadAfterImage].
  rewrite H3. reflexivity.
Qed.

(** A body is the body of one of the three known actions, or has a name
    the [switch] does not know. *)
Lemma Action_cases (P : Action -> Prop) :
  (forall p, P (GenerateDesignIdeas p)) ->
  (forall p, P (GenerateRedesignedImage p)) ->
  (forall p, P (GenerateMorePalettes p)) ->
  (forall body, knownAction (action body) = false -> P body) ->
  forall body, P body.
Proof.
  intros Hideas Himage Hpalettes Hother [name p].
  destruct (String.eqb_spec name "generateDesignIdeas") as [-> | N1];
    [exact (Hideas p) |].
  destruct (String.eqb_spec name "generateRedesignedImage") as [-> | N2];
    [exact (Himage p) |].
  destruct (String.eqb_spec name "generateMorePalettes") as [-> | N3];
    [exact (Hpalettes p) |].
  apply Hother. cbn [action]. unfold knownAction.
  apply String.eqb_neq in N1. apply String.eqb_neq in N2.
  apply String.eqb_neq in N3. now rewrite N1, N2, N3.
Qed.

(** X1: a request whose method is not POST is answered 405 with the
    error Method not allowed, whatever the credential, the body and the
    backend. *)
Theorem handler_rejects_other_methods (method : string)
    (API_KEY : option string) (backend : Backend) (body : Js.Exn Action) :
  method <> "POST" ->
  handler method API_KEY backend body
  = Http.mkResponse 405%Z (Some "Method not allowed") NoResult.
Proof.
  intros H. unfold handler.
  apply String.eqb_neq in H. now rewrite H.
Qed.

Lemma handler_rejects_other_methods_witness :
  handler "GET" None deadBackend (Js.Throw "Unexpected end of JSON input")
  = Http.mkResponse 405%Z (Some "Method not allowed") NoResult.
Proof.
  apply handler_rejects_other_methods. discriminate.
Defined.

(** X2: a POST request received while the credential is unset or empty
    is answered 500 with the message that the API_KEY environment
    variable is not set, whatever the body (even one that does not parse
    or names an unknown action) and the backend. *)
Theorem handler_requires_credential (API_KEY : option string)
    (backend : Backend) (body : Js.Exn Action) :
  API_KEY = None \/ API_KEY = Some EmptyString ->
  handler "POST" API_KEY backend body
  = Http.mkResponse 500%Z
      (Some "Server error: API_KEY environment variable is not set.") NoResult.
Proof.
  intros [-> | ->]; reflexivity.
Qed.

Lemma handler_requires_credential_witness :
  handler "POST" (Some EmptyString) imageBackend
    (Js.Return (mkAction "ping" tt))
  = Http.mkResponse 500%Z
      (Some "Server error: API_KEY environment variable is not set.") NoResult.
Proof.
  apply handler_requires_credential. now right.
Defined.

Lemma handler_dispatch (API_KEY : string) (backend : Backend) (body : Action) :
  API_KEY <> EmptyString ->
  handler "POST" (Some API_KEY) backend (Js.Return body)
  = Js.try_catch (dispatch backend body)
      (fun message =>
         Http.mkResponse 500%Z (Some ("Server error: " ++ message)) NoResult).
Proof.
  intros H. apply truthy_true in H. unfold handler.
  cbn [String.eqb Ascii.eqb Bool.eqb negb Js.truthy_opt].
  now rewrite H.
Qed.

(** X3: with the credential set, a POST request is answered 400 with the
    error Invalid action exactly when the name of its action is none of
    the three names the switch compares it with: under such a name the
    answer is that one whatever the payload and the backend, and under a
    known name the status is never 400. *)
Theorem handler_unknown_action (API_KEY : string) (backend : Backend)
    (body : Action) :
  API_KEY <> EmptyString ->
  (knownAction (action body) = false ->
   handler "POST" (Some API_KEY) backend (Js.Return body)
   = Http.mkResponse 400%Z (Some "Invalid action") NoResult) /\
  (knownAction (action body) = true ->
   Http.status (handler "POST" (Some API_KEY) backend (Js.Return body))
   <> 400%Z).
Proof.
  intros H. rewrite (handler_dispatch _ _ _ H). split.
  - intros Hname. unfold dispatch. now rewrite switchOn_default.
  - revert body. apply (Action_cases (fun body =>
      knownAction (action body) = true ->
      Http.status
        (Js.try_catch (dispatch backend body)
           (fun message =>
              Http.mkResponse 500%Z (Some ("Server error: " ++ message)) NoResult))
      <> 400%Z)).
    + intros p _. unfold dispatch. cbn [action payload GenerateDesignIdeas].
      cbn [switchOn String.eqb Ascii.eqb Bool.eqb].
      destruct (generateContent backend _) as [response | m];
        cbn [Js.bind Js.try_catch Http.status]; [| discriminate].
      destruct (parsePlan backend response);
        cbn [Js.bind Js.try_catch Http.status]; discriminate.
    + intros p _. unfold dispatch. cbn [action payload GenerateRedesignedImage].
      cbn [switchOn String.eqb Ascii.eqb Bool.eqb].
      destruct (generateContent backend _) as [response | m];
        cbn [Js.bind Js.try_catch Http.status]; [| discriminate].
      destruct (findImage (firstCandidate response));
        cbn [Js.try_catch Http.status]; discriminate.
    + intros p _. unfold dispatch. cbn [action payload GenerateMorePalettes].
      cbn [switchOn String.eqb Ascii.eqb Bool.eqb].
      destruct (generateContent backend _) as [response | m];
        cbn [Js.bind Js.try_catch Http.status]; [| discriminate].
      destruct (parsePalettes backend response);
        cbn [Js.bind Js.try_catch Http.status]; discriminate.
    + intros body Hunknown Hknown. congruence.
Qed.

Lemma handler_unknown_action_witness :
  handler "POST" (Some "key") deadBackend (Js.Return (mkAction "ping" tt))
  = Http.mkResponse 400%Z (Some "Invalid action") NoResult.
Proof.
  refine (proj1 (handler_unknown_action "key" deadBackend (mkAction "ping" tt) _)
            eq_refl).
  discriminate.
Defined.

(** X4: with the credential set, when the backend call of a known action
    throws, and also when the body of the request cannot be read, the
    answer is 500 with the message of the error after the words Server
    error. *)
Theorem handler_reports_thrown_errors (API_KEY : string) (backend : Backend) :
  API_KEY <> EmptyString ->
  (forall message,
     handler "POST" (Some API_KEY) backend (Js.Throw message)
     = Http.mkResponse 500%Z (Some ("Server error: " ++ message)) NoResult) /\
  (forall body request message,
     actionRequest body = Some request ->
     generateContent backend request = Js.Throw message ->
     handler "POST" (Some API_KEY) backend (Js.Return body)
     = Http.mkResponse 500%Z (Some ("Server error: " ++ message)) NoResult).
Proof.
  intros H. split.
  - intros message. apply truthy_true in H. unfold handler.
    cbn [String.eqb Ascii.eqb Bool.eqb negb Js.truthy_opt].
    now rewrite H.
  - intros body request message. rewrite (handler_dispatch _ _ _ H).
    revert body. apply (Action_cases (fun body =>
      actionRequest body = Some request ->
      generateContent backend request = Js.Throw message ->
      Js.try_catch (dispatch backend body)
        (fun m => Http.mkResponse 500%Z (Some ("Server error: " ++ m)) NoResult)
      = Http.mkResponse 500%Z (Some ("Server error: " ++ message)) NoResult)).
    + intros p [= <-] Hcall. unfold dispatch.
      cbn [action payload GenerateDesignIdeas].
      cbn [switchOn String.eqb Ascii.eqb Bool.eqb]. now rewrite Hcall.
    + intros p [= <-] Hcall. unfold dispatch.
      cbn [action payload GenerateRedesignedImage].
      cbn [switchOn String.eqb Ascii.eqb Bool.eqb]. now rewrite Hcall.
    + intros p [= <-] Hcall. unfold dispatch.
      cbn [action payload GenerateMorePalettes].
      cbn [switchOn String.eqb Ascii.eqb Bool.eqb]. now rewrite Hcall.
    + intros body Hunknown Hreq. unfold actionRequest in Hreq.
      rewrite switchOn_default in Hreq by exact Hunknown. discriminate Hreq.
Qed.

Lemma handler_reports_thrown_errors_witness :
  handler "POST" (Some "key") deadBackend
    (Js.Return (GenerateRedesignedImage samplePayload))
  = Http.mkResponse 500%Z (Some "Server error: quota exceeded") NoResult.
Proof.
  refine (proj2 (handler_reports_thrown_errors "key" deadBackend _)
            (GenerateRedesignedImage samplePayload) _ "quota exceeded"
            eq_refl eq_refl).
  discriminate.
Defined.

(** X5: with the credential set, when the backend answers but its text
    does not parse, the plan action and the palettes action are answered
    500 with the message of the parse error; the image action does not
    parse the text and is not affected. *)
Theorem handler_reports_parse_errors (API_KEY : string) (backend : Backend)
    (response : GenerateContentResponse) (message : string) :
  API_KEY <> EmptyString ->
  (forall request, generateContent backend request = Js.Return response) ->
  (parsePlan backend response = Js.Throw message ->
   forall payload,
     handler "POST" (Some API_KEY) backend
       (Js.Return (GenerateDesignIdeas payload))
     = Http.mkResponse 500%Z (Some ("Server error: " ++ message)) NoResult) /\
  (parsePalettes backend response = Js.Throw message ->
   forall payload,
     handler "POST" (Some API_KEY) backend
       (Js.Return (GenerateMorePalettes payload))
     = Http.mkResponse 500%Z (Some ("Server error: " ++ message)) NoResult) /\
  (forall payload parsePlan' parsePalettes',
     handler "POST" (Some API_KEY) backend
       (Js.Return (GenerateRedesignedImage payload))
     = handler "POST" (Some API_KEY)
         (mkBackend (generateContent backend) parsePlan' parsePalettes')
         (Js.Return (GenerateRedesignedImage payload))).
Proof.
  intros H Hcall. split; [| split].
  - intros Hparse p. rewrite (handler_dispatch _ _ _ H).
    run_switch. rewrite Hcall. cbn [Js.bind]. now rewrite Hparse.
  - intros Hparse p. rewrite (handler_dispatch _ _ _ H).
    run_switch. rewrite Hcall. cbn [Js.bind]. now rewrite Hparse.
  - intros p p1 p2. now rewrite !(handler_dispatch _ _ _ H).
Qed.

Lemma handler_reports_parse_errors_witness :
  handler "POST" (Some "key") imageBackend
    (Js.Return (GenerateMorePalettes
                  (Service.mkMorePalettesPayload samplePlan "Modern")))
  = Http.mkResponse 500%Z
      (Some "Server error: Unexpected token H in JSON at position 0") NoResult.
Proof.
  refine (proj1 (proj2
    (handler_reports_parse_errors "key" imageBackend sampleImageResponse
       "Unexpected token H in JSON at position 0" _ (fun _ => eq_refl)))
    eq_refl (Service.mkMorePalettesPayload samplePlan "Modern")).
  discriminate.
Defined.

(** X6: every answer of the handler is of one of two kinds: status 200
    without error and with a result, the image bytes of an image result
    being a non-empty string; or status 400, 405 or 500 with a non-empty
    error and without result. *)
Theorem handler_answers (method : string) (API_KEY : option string)
    (backend : Backend) (body : Js.Exn Action) :
  let answer := handler method API_KEY backend body in
  (Http.status answer = 200%Z /\ Http.error answer = None /\
   Http.result answer <> NoResult /\
   (forall bytes, Http.result answer = ImageResult bytes ->
                  bytes <> EmptyString)) \/
  ((Http.status answer = 400%Z \/ Http.status answer = 405%Z \/
    Http.status answer = 500%Z) /\
   (exists message, Http.error answer = Some message /\
                    message <> EmptyString) /\
   Http.result answer = NoResult).
Proof.
  assert (Hbad : forall status message,
    status = 400%Z \/ status = 405%Z \/ status = 500%Z ->
    message <> EmptyString ->
    let answer := Http.mkResponse status (Some message) NoResult in
    (Http.status answer = 200%Z /\ Http.error answer = None /\
     Http.result answer <> NoResult /\
     (forall bytes, Http.result answer = ImageResult bytes ->
                    bytes <> EmptyString)) \/
    ((Http.status answer = 400%Z \/ Http.status answer = 405%Z \/
      Http.status answer = 500%Z) /\
     (exists m, Http.error answer = Some m /\ m <> EmptyString) /\
     Http.result answer = NoResult)).
  { intros status message Hs Hm. right. repeat split; [exact Hs |].
    now exists message. }
  cbv zeta. unfold handler.
  destruct (negb (method =? "POST")).
  { apply Hbad; [auto | discriminate]. }
  destruct (negb (Js.truthy_opt API_KEY)).
  { apply Hbad; [auto | discriminate]. }
  destruct body as [requestBody | message]; cbn [Js.bind Js.try_catch];
    [| apply Hbad; [auto | discriminate]].
  pattern requestBody. apply Action_cases; clear requestBody.
  4: { intros requestBody Hunknown. unfold dispatch.
       rewrite switchOn_default by exact Hunknown.
       apply Hbad; [auto | discriminate]. }
  all: intros p; run_switch.
  - destruct (generateContent backend _) as [response | m]; cbn [Js.bind Js.try_catch];
      [| apply Hbad; [auto | discriminate]].
    destruct (parsePlan backend response); cbn [Js.bind Js.try_catch];
      [| apply Hbad; [auto | discriminate]].
    left. repeat split; discriminate.
  - destruct (generateContent backend _) as [response | m]; cbn [Js.bind Js.try_catch];
      [| apply Hbad; [auto | discriminate]].
    destruct (findImage (firstCandidate response)) as [bytes |] eqn:E;
      cbn [Js.try_catch]; [| apply Hbad; [auto | discriminate]].
    left. repeat split; try discriminate.
    intros b [= <-]. now apply (findImage_truthy _ _ E).
  - destruct (generateContent backend _) as [response | m]; cbn [Js.bind Js.try_catch];
      [| apply Hbad; [auto | discriminate]].
    destruct (parsePalettes backend response); cbn [Js.bind Js.try_catch];
      [| apply Hbad; [auto | discriminate]].
    left. repeat split; discriminate.
Qed.

(** On the image action the whole handler gives the answer of the
    image case taken alone: same status, same error, and the image bytes
    as result. *)
Theorem handler_image_case (method : string) (API_KEY : option string)
    (backend : Backend) (payload : RedesignPayload) :
  let whole :=
    handler method API_KEY backend (Js.Return (GenerateRedesignedImage payload)) in
  let alone :=
    handleRedesignedImage method API_KEY (generateContent backend) payload in
  Http.status whole = Http.status alone /\
  Http.error whole = Http.error alone /\
  Http.result whole
  = match Http.imageBytes (Http.result alone) with
    | Some bytes => ImageResult bytes
    | None => NoResult
    end.
Proof.
  cbv zeta. unfold handler, handleRedesignedImage.
  destruct (negb (method =? "POST")); [repeat split |].
  destruct (negb (Js.truthy_opt API_KEY)); [repeat split |].
  cbn [Js.bind]. run_switch.
  destruct (generateContent backend _) as [response | m];
    cbn [Js.bind Js.try_catch]; [| repeat split].
  unfold mapRedesignedImage.
  destruct (findImage (firstCandidate response)); repeat split.
Qed.

(** X7: the mapping of the image response looks at the first candidate
    only: candidates after the first never change the outcome, even when
    they hold an image. *)
Theorem later_candidates_are_ignored (first : Candidate)
    (others others' : list Candidate) :
  mapRedesignedImage (mkGenResponse (Some (first :: others)))
  = mapRedesignedImage (mkGenResponse (Some (first :: others'))) /\
  (findImage (Some first) = None ->
   mapRedesignedImage (mkGenResponse (Some (first :: others)))
   = Js.Throw (errorMessage (Some first))).
Proof.
  split; [reflexivity |].
  intros H. unfold mapRedesignedImage.
  cbn [firstCandidate candidates]. now rewrite H.
Qed.

End EndpointFacts.

(** ** What the prompts depend on *)

Section PromptFacts.
Import Gateway.

(** X10: the image prompt reads the plan through its wall color, lighting,
    flooring and furniture names only: two plans that agree on these
    give the same prompt, whatever their analysis, rationale, cost,
    alternative palettes and the other fields of their furniture. *)
Theorem image_prompt_reads_four_fields (plan plan' : DesignPlan)
    (style roomType : string) (newColors : option ColorPalette) :
  wallColor plan = wallColor plan' ->
  lighting plan = lighting plan' ->
  flooring plan = flooring plan' ->
  map name (furnitureSuggestions plan) = map name (furnitureSuggestions plan') ->
  redesignedImagePrompt plan style roomType newColors
  = redesignedImagePrompt plan' style roomType newColors.
Proof.
  intros Hw Hl Hf Hn.
  unfold redesignedImagePrompt, imagePromptWith, primaryColor, accentColor,
    furnitureList, exteriorTemplate, interiorTemplate.
  now rewrite Hw, Hl, Hf, Hn.
Qed.

Lemma image_prompt_reads_four_fields_witness :
  redesignedImagePrompt samplePlan "Modern" "Bedroom" None
  = redesignedImagePrompt
      (mkPlan "Other analysis." "Other rationale."
         (mkPalette "Soft White" "Charcoal Gray") "Arched floor lamp" "Light oak"
         [mkFurniture "Sofa" "Leather" "By the window" 1 (Some "https://example.com/sofa.gltf");
          mkFurniture "Rug" "Jute" "Under the bed" 2 None]
         (mkCost 0 0 "EUR") [])
      "Modern" "Bedroom" None.
Proof.
  apply image_prompt_reads_four_fields; reflexivity.
Defined.

(** X11: for a room type other than the exterior, the image prompt does not
    depend on the accent color: neither on the accent of the new colors
    nor on the accent of the wall color of the plan. *)
Theorem interior_prompt_ignores_accent (plan : DesignPlan)
    (style roomType primary accent1 accent2 : string) :
  equalIgnoringCase roomType "Exterior" = false ->
  imagePromptWith plan style roomType primary accent1
  = imagePromptWith plan style roomType primary accent2 /\
  redesignedImagePrompt plan style roomType (Some (mkPalette primary accent1))
  = redesignedImagePrompt plan style roomType (Some (mkPalette primary accent2)).
Proof.
  intros H. unfold redesignedImagePrompt, imagePromptWith.
  rewrite isExterior_ignoring_case, H. split; reflexivity.
Qed.

Lemma interior_prompt_ignores_accent_witness :
  redesignedImagePrompt samplePlan "Modern" "Bedroom"
    (Some (mkPalette "Navy" "Brass"))
  = redesignedImagePrompt samplePlan "Modern" "Bedroom"
      (Some (mkPalette "Navy" "Copper")).
Proof.
  apply (interior_prompt_ignores_accent samplePlan "Modern" "Bedroom"
           "Navy" "Brass" "Copper").
  reflexivity.
Defined.

(** X12: for the exterior, the image prompt depends neither on the flooring of
    the plan nor on the way the room type is written. *)
Theorem exterior_prompt_ignores_flooring (plan : DesignPlan)
    (style roomType roomType' flooring' : string)
    (newColors : option ColorPalette) :
  equalIgnoringCase roomType "Exterior" = true ->
  equalIgnoringCase roomType' "Exterior" = true ->
  redesignedImagePrompt plan style roomType newColors
  = redesignedImagePrompt
      (mkPlan (analysis plan) (designRationale plan) (wallColor plan)
         (lighting plan) flooring' (furnitureSuggestions plan)
         (estimatedCost plan) (alternativePalettes plan))
      style roomType' newColors.
Proof.
  intros H H'. unfold redesignedImagePrompt, imagePromptWith.
  rewrite !isExterior_ignoring_case, H, H'. reflexivity.
Qed.

Lemma exterior_prompt_ignores_flooring_witness :
  redesignedImagePrompt samplePlan "Modern" "Exterior" None
  = redesignedImagePrompt
      (mkPlan (analysis samplePlan) (designRationale samplePlan)
         (wallColor samplePlan) (lighting samplePlan) "Gravel"
         (furnitureSuggestions samplePlan) (estimatedCost samplePlan)
         (alternativePalettes samplePlan))
      "Modern" "EXTERIOR" None.
Proof.
  apply exterior_prompt_ignores_flooring; reflexivity.
Defined.

Lemma template_contains_furniture (plan : DesignPlan)
    (style roomType primary secondary : string) :
  Contains (furnitureList plan)
    (imagePromptWith plan style roomType primary secondary).
Proof.
  unfold imagePromptWith. destruct (isExterior roomType).
  - unfold exteriorTemplate.
    do 19 apply Contains_append_l. apply Contains_append_r, Contains_refl.
  - unfold interiorTemplate.
    do 25 apply Contains_append_l. apply Contains_append_r, Contains_refl.
Qed.

(** X13: the image prompt names every furniture item of the plan: the name of
    each item occurs in the prompt, in both templates. *)
Theorem image_prompt_names_all_furniture (plan : DesignPlan)
    (style roomType : string) (newColors : option ColorPalette)
    (item : FurnitureSuggestion) :
  In item (furnitureSuggestions plan) ->
  Contains (name item) (redesignedImagePrompt plan style roomType newColors).
Proof.
  intros Hin. unfold redesignedImagePrompt.
  eapply Contains_trans_text; [| apply template_contains_furniture].
  unfold furnitureList. apply join_contains. now apply in_map.
Qed.

Lemma image_prompt_names_all_furniture_witness :
  Contains "Rug" (redesignedImagePrompt samplePlan "Modern" "Exterior" None).
Proof.
  apply (image_prompt_names_all_furniture samplePlan "Modern" "Exterior" None
           (mkFurniture "Rug" "Wool" "Centre" 200 None)).
  simpl. auto.
Defined.

(** X14: whatever the number of alternative palettes of the plan, none
    included, the prompt of the more-palettes operation lists the wall
    color and every alternative palette, each as a dash, its color, an
    ampersand and its accent. *)
Theorem more_palettes_prompt_lists_all (plan : DesignPlan) (style : string)
    (palette : ColorPalette) :
  palette = wallColor plan \/ In palette (alternativePalettes plan) ->
  Contains ("- " ++ color palette ++ " & " ++ accent palette)
    (morePalettesPrompt plan style).
Proof.
  intros Hin.
  destruct (morePalettesPrompt_listing plan style) as (before & after & ->).
  apply Contains_append_l, Contains_append_l, Contains_append_r.
  unfold existingPalettes. apply join_contains.
  change ("- " ++ color palette ++ " & " ++ accent palette)
    with (paletteLine palette).
  apply in_map. destruct Hin as [-> | Hin]; [now left | now right].
Qed.

Lemma more_palettes_prompt_lists_all_witness :
  Contains "- Soft White & Charcoal Gray"
    (morePalettesPrompt
       (mkPlan "Bright room." "Balance." (mkPalette "Soft White" "Charcoal Gray")
          "Lamp" "Oak" [] (mkCost 0 0 "USD") [])
       "Modern").
Proof.
  apply (more_palettes_prompt_lists_all
           (mkPlan "Bright room." "Balance." (mkPalette "Soft White" "Charcoal Gray")
              "Lamp" "Oak" [] (mkCost 0 0 "USD") [])
           "Modern" (mkPalette "Soft White" "Charcoal Gray")).
  now left.
Defined.

End PromptFacts.

(** ** The client wrappers *)

Section ClientFacts.

(** X15: [callApi] passes a rejection of the request on unchanged; returns the
    body of a response whose status is between 200 and 299, without
    looking at it; and for any other status throws the error of the body
    when it is a non-empty string, and otherwise the message that the API
    request failed with that status. *)
Theorem callApi_outcome (T : Type) :
  (forall message : string,
     Service.callApi (T := T) (Js.Throw message) = Js.Throw message) /\
  (forall response : Http.Response T,
     (200 <= Http.status response <= 299)%Z ->
     Service.callApi (Js.Return response) = Js.Return (Http.result response)) /\
  (forall (response : Http.Response T) (message : string),
     (Http.status response < 200 \/ 299 < Http.status response)%Z ->
     Http.error response = Some message -> message <> EmptyString ->
     Service.callApi (Js.Return response) = Js.Throw message) /\
  (forall response : Http.Response T,
     (Http.status response < 200 \/ 299 < Http.status response)%Z ->
     Http.error response = None \/ Http.error response = Some EmptyString ->
     Service.callApi (Js.Return response)
     = Js.Throw ("API request failed with status " ++
                 Js.numberToString (Http.status response))).
Proof.
  assert (Hok : forall response : Http.Response T,
            (200 <= Http.status response <= 299)%Z -> Http.ok response = true).
  { intros response [H1 H2]. unfold Http.ok.
    apply andb_true_intro. split; now apply Z.leb_le. }
  assert (Hko : forall response : Http.Response T,
            (Http.status response < 200 \/ 299 < Http.status response)%Z ->
            Http.ok response = false).
  { intros response H. unfold Http.ok. apply andb_false_iff.
    destruct H as [H | H]; [left | right]; apply Z.leb_gt; lia. }
  repeat split.
  - intros response H. unfold Service.callApi. cbn [Js.bind].
    now rewrite (Hok _ H).
  - intros response message H He Hm. unfold Service.callApi. cbn [Js.bind].
    rewrite (Hko _ H), He. cbn [negb Js.or_else_opt]. unfold Js.or_else.
    apply truthy_true in Hm. now rewrite Hm.
  - intros response H He. unfold Service.callApi. cbn [Js.bind].
    rewrite (Hko _ H). cbn [negb].
    destruct He as [-> | ->]; reflexivity.
Qed.

(** X16: the client wrapper applied to the answer of the gateway: when the
    first candidate of the backend response holds an image, the wrapper
    returns its bytes; when it holds none, the wrapper throws the message
    of the gateway after the words Server error.  Against this gateway the
    wrapper never throws its own error about missing image data. *)
Theorem client_sees_gateway_outcome (API_KEY : string)
    (generateContent : Gateway.ModelRequest -> Js.Exn Gateway.GenerateContentResponse)
    (payload : Gateway.RedesignPayload)
    (response : Gateway.GenerateContentResponse) :
  API_KEY <> EmptyString ->
  generateContent
    (Gateway.redesignedImageRequest (Gateway.designPlan payload)
       (Gateway.style payload) (Gateway.roomType payload)
       (Gateway.base64Image payload) (Gateway.newColors payload))
  = Js.Return response ->
  let outcome :=
    Service.generateRedesignedImage
      (Js.Return (Gateway.handleRedesignedImage "POST" (Some API_KEY)
                    generateContent payload)) in
  (forall bytes,
     Gateway.findImage (Gateway.firstCandidate response) = Some bytes ->
     outcome = Js.Return bytes) /\
  (Gateway.findImage (Gateway.firstCandidate response) = None ->
   outcome = Js.Throw ("Server error: " ++
                       Gateway.errorMessage (Gateway.firstCandidate response))) /\
  outcome <> Js.Throw Service.noImageData.
Proof.
  intros Hkey Hcall outcome. subst outcome.
  apply truthy_true in Hkey.
  rewrite (handleRedesignedImage_mapped _ _ _ _ Hkey Hcall).
  unfold Gateway.mapRedesignedImage.
  destruct (Gateway.findImage (Gateway.firstCandidate response)) as [b |] eqn:E.
  - pose proof (findImage_truthy _ _ E) as Hb. apply truthy_true in Hb.
    unfold Service.generateRedesignedImage, Service.callApi.
    cbn. rewrite Hb.
    repeat split; try discriminate. now intros bytes [= <-].
  - unfold Service.generateRedesignedImage, Service.callApi.
    cbn. repeat split; discriminate.
Qed.

Lemma client_sees_gateway_outcome_witness :
  Service.generateRedesignedImage
    (Js.Return (Gateway.handleRedesignedImage "POST" (Some "key")
                  (fun _ => Js.Return safetyResponse) samplePayload))
  = Js.Throw "Server error: Image generation was blocked by safety filters for the following reasons: VIOLENCE.".
Proof.
  refine (proj1 (proj2
    (client_sees_gateway_outcome "key" (fun _ => Js.Return safetyResponse)
       samplePayload safetyResponse _ eq_refl)) eq_refl).
  discriminate.
Defined.

End ClientFacts.

(** ** The flows of the orchestrator *)

Section FlowFacts.
Import App.
Import Controls.

(** X17: when the image, the style or the room type is missing or empty, the
    primary flow issues no call: it ends at once, with the message asking
    for them as error and every other part of the state as it was. *)
Theorem generate_needs_inputs (st : State) :
  uploadedImage st = None \/ uploadedImage st = Some EmptyString \/
  selectedStyle st = EmptyString \/ selectedRoomType st = EmptyString ->
  handleGenerateClick st = Done (setError (Some missingInputMessage) st) /\
  forall net : Service.Network,
    let final := run net (handleGenerateClick st) in
    error final = Some missingInputMessage /\
    designPlan final = designPlan st /\
    generatedImage final = generatedImage st /\
    isLoading final = isLoading st /\
    feedbackSubmitted final = feedbackSubmitted st.
Proof.
  intros H.
  assert (E : handleGenerateClick st = Done (setError (Some missingInputMessage) st)).
  { unfold handleGenerateClick.
    destruct (uploadedImage st) as [image |]; [| reflexivity].
    destruct H as [H | [H | [H | H]]]; try discriminate.
    - injection H as ->. reflexivity.
    - rewrite H. cbn [Js.truthy negb]. now rewrite orb_true_r.
    - rewrite H. cbn [Js.truthy negb]. now rewrite orb_true_r. }
  split; [exact E |]. intros net. cbv zeta. rewrite E. repeat split.
Qed.

Lemma generate_needs_inputs_witness :
  handleGenerateClick initialState
  = Done (setError (Some missingInputMessage) initialState).
Proof.
  apply generate_needs_inputs. now left.
Defined.

(** X18: a new generation starts by discarding what the previous one left:
    while the plan call is pending the state holds no plan, no image and
    no error, and is loading; if that call then fails, the plan the state
    held before the click is not restored. *)
Theorem new_generation_discards_previous
    (st : State) (net : Service.Network) (image : string) :
  uploadedImage st = Some image ->
  image <> EmptyString -> selectedStyle st <> EmptyString ->
  selectedRoomType st <> EmptyString ->
  let pending := committed (handleGenerateClick st) in
  designPlan pending = None /\ generatedImage pending = None /\
  error pending = None /\ isLoading pending = true /\
  feedbackSubmitted pending = false /\
  (forall message,
     Service.generateDesignIdeas
       (Service.fetchDesignIdeas net
          (Service.mkDesignIdeasPayload image (selectedStyle st)
             (roomDimensions st) (selectedRoomType st)))
     = Js.Throw message ->
     designPlan (run net (handleGenerateClick st)) = None /\
     generatedImage (run net (handleGenerateClick st)) = None).
Proof.
  intros Himage Hi Hs Hr.
  destruct (handleGenerateClick_guard st image Himage Hi Hs Hr) as (Ti & Ts & Tr).
  cbv zeta. unfold handleGenerateClick.
  rewrite Himage, Ti, Ts, Tr. cbn [negb orb committed run].
  repeat split; intros; rewrite H; reflexivity.
Qed.

Lemma new_generation_discards_previous_witness :
  designPlan plannedState = Some samplePlan /\
  designPlan (run failingNetwork (handleGenerateClick plannedState)) = None.
Proof.
  split; [reflexivity |].
  refine (proj1 (proj2 (proj2 (proj2 (proj2 (proj2
    (new_generation_discards_previous plannedState failingNetwork "AAAA"
       eq_refl _ _ _))))) "Failed to fetch" eq_refl)); discriminate.
Defined.


(** X20: the text of an upstream error never reaches the state: at the end of
    any of the three flows, on any network, the error of the state is the
    one it held before, or none, or one of the fixed messages of the
    component. *)
Theorem errors_are_fixed_messages (st : State) (net : Service.Network)
    (newColors : ColorPalette) :
  Forall (fun final =>
            error final = error st \/ error final = None \/
            exists message, error final = Some message /\
                            In message fixedMessages)
    [run net (handleGenerateClick st);
     run net (handleColorChange newColors st);
     run net (handleSuggestMorePalettes st)].
Proof.
  assert (Hfixed : forall (final : State) message,
            error final = Some message -> In message fixedMessages ->
            error final = error st \/ error final = None \/
            exists m, error final = Some m /\ In m fixedMessages).
  { intros final message He Hin. right. right. now exists message. }
  constructor; [| constructor; [| constructor; [| constructor]]].
  - unfold handleGenerateClick.
    destruct (uploadedImage st) as [image |];
      [| eapply Hfixed; [reflexivity | simpl; auto]].
    destruct (_ || _); [eapply Hfixed; [reflexivity | simpl; auto] |].
    cbn [run].
    destruct (Service.generateDesignIdeas _);
      [| eapply Hfixed; [reflexivity | simpl; auto]].
    destruct (negb (Js.truthy image));
      [eapply Hfixed; [reflexivity | simpl; auto] |].
    cbn [run].
    destruct (Service.generateRedesignedImage _);
      [right; left; reflexivity | eapply Hfixed; [reflexivity | simpl; auto]].
  - unfold handleColorChange.
    destruct (designPlan st), (uploadedImage st) as [image |];
      try (left; reflexivity).
    destruct (negb (Js.truthy image)); [left; reflexivity |]. cbn [run].
    destruct (Service.generateRedesignedImage _);
      [right; left; reflexivity | eapply Hfixed; [reflexivity | simpl; auto]].
  - unfold handleSuggestMorePalettes.
    destruct (designPlan st); [| left; reflexivity]. cbn [run].
    destruct (Service.generateMorePalettes _);
      [right; left; reflexivity | eapply Hfixed; [reflexivity | simpl; auto 6]].
Qed.

(** X21: without a plan the recolor flow and the more-palettes flow issue no
    call and leave the state as it is; so does the recolor flow without
    an uploaded image. *)
Theorem flows_need_a_plan (st : State) (newColors : ColorPalette) :
  (designPlan st = None ->
   handleColorChange newColors st = Done st /\
   handleSuggestMorePalettes st = Done st) /\
  (uploadedImage st = None \/ uploadedImage st = Some EmptyString ->
   handleColorChange newColors st = Done st).
Proof.
  split.
  - intros H. unfold handleColorChange, handleSuggestMorePalettes.
    rewrite H. split; reflexivity.
  - intros [H | H]; unfold handleColorChange; rewrite H;
      destruct (designPlan st); reflexivity.
Qed.

(** X22: when the more-palettes call fails, the plan is the one the state
    held, the image is untouched, and the state holds the message that
    more color ideas could not be fetched. *)
Theorem more_palettes_failure_keeps_plan (st : State) (net : Service.Network)
    (plan : DesignPlan) (message : string) :
  designPlan st = Some plan ->
  Service.generateMorePalettes
    (Service.fetchMorePalettes net
       (Service.mkMorePalettesPayload plan (selectedStyle st)))
  = Js.Throw message ->
  let final := run net (handleSuggestMorePalettes st) in
  designPlan final = Some plan /\
  generatedImage final = generatedImage st /\
  error final = Some palettesFailedMessage /\
  isFetchingPalettes final = false.
Proof.
  intros Hplan Hcall. cbv zeta. unfold handleSuggestMorePalettes.
  rewrite Hplan. cbn [run]. rewrite Hcall. repeat split. exact Hplan.
Qed.

Lemma more_palettes_failure_keeps_plan_witness :
  designPlan (run failingNetwork (handleSuggestMorePalettes plannedState))
  = Some samplePlan /\
  error (run failingNetwork (handleSuggestMorePalettes plannedState))
  = Some palettesFailedMessage.
Proof.
  destruct (more_palettes_failure_keeps_plan plannedState failingNetwork
              samplePlan "Failed to fetch" eq_refl eq_refl)
    as (Hplan & _ & Herr & _).
  split; [exact Hplan | exact Herr].
Defined.

(** X23: while a flow is pending its controls are disabled: the button that
    starts the primary flow while the plan call is pending, the palette
    buttons and the button for more palettes while the recolor call or
    the more-palettes call is pending. *)
Theorem controls_disabled_while_pending (st : State) (image : string)
    (newColors : ColorPalette) :
  uploadedImage st = Some image -> image <> EmptyString ->
  (selectedStyle st <> EmptyString -> selectedRoomType st <> EmptyString ->
   isButtonDisabled (committed (handleGenerateClick st)) = true) /\
  (designPlan st <> None ->
   palettesDisabled (committed (handleColorChange newColors st)) = true /\
   palettesDisabled (committed (handleSuggestMorePalettes st)) = true).
Proof.
  intros Himage Hi. split.
  - intros Hs Hr.
    destruct (handleGenerateClick_guard st image Himage Hi Hs Hr) as (Ti & Ts & Tr).
    unfold handleGenerateClick. rewrite Himage, Ti, Ts, Tr.
    cbn [negb orb committed]. unfold isButtonDisabled. cbn.
    apply orb_true_r.
  - intros Hplan. destruct (designPlan st) as [plan |] eqn:E;
      [| now contradiction Hplan].
    apply truthy_true in Hi.
    unfold handleColorChange, handleSuggestMorePalettes.
    rewrite E, Himage, Hi. cbn [negb committed]. unfold palettesDisabled. cbn.
    split; [reflexivity | apply orb_true_r].
Qed.

Lemma controls_disabled_while_pending_witness :
  palettesDisabled
    (committed (handleColorChange (mkPalette "Navy" "Brass") plannedState))
  = true.
Proof.
  refine (proj1 (proj2
    (controls_disabled_while_pending plannedState "AAAA"
       (mkPalette "Navy" "Brass") eq_refl _) _)); discriminate.
Defined.

End FlowFacts.

(** ** How the merge and the recolor compose *)

Section MergeFacts.
Import App.

Lemma merged_alternatives (newPalettes : list ColorPalette) (prev : DesignPlan) :
  mergePalettes newPalettes (Some prev)
  = Some (withAlternativePalettes prev
            (alternativePalettes prev ++
             filter (fun p => negb (serialisedAmong (alternativePalettes prev) p))
               newPalettes)).
Proof.
  unfold mergePalettes. now rewrite uniqueNewPalettes_spec.
Qed.

(** X24: merging the same response a second time changes nothing: after a
    merge every returned palette is among the alternative palettes. *)
Theorem merge_twice_is_merge_once (newPalettes : list ColorPalette)
    (prevPlan : option DesignPlan) :
  mergePalettes newPalettes (mergePalettes newPalettes prevPlan)
  = mergePalettes newPalettes prevPlan.
Proof.
  destruct prevPlan as [prev |]; [| reflexivity].
  rewrite (merged_alternatives newPalettes prev).
  rewrite merged_alternatives.
  cbn [withAlternativePalettes alternativePalettes analysis designRationale
         wallColor lighting flooring furnitureSuggestions estimatedCost].
  set (existing := alternativePalettes prev).
  set (kept := filter (fun p => negb (serialisedAmong existing p)) newPalettes).
  rewrite (filter_all_duplicates (existing ++ kept) newPalettes);
    [now rewrite app_nil_r |].
  intros p Hin. apply in_or_app. subst kept existing.
  destruct (serialisedAmong (alternativePalettes prev) p) eqn:Hd.
  - left. now apply serialisedAmong_In.
  - right. apply filter_In. split; [exact Hin | now rewrite Hd].
Qed.

Lemma filter_same_absent (p : ColorPalette) (l : list ColorPalette) :
  (forall q, In q l -> samePalette p q = false) ->
  filter (samePalette p) l = [].
Proof.
  intros H. induction l as [| q l IH]; [reflexivity |].
  cbn [filter]. rewrite (H q (or_introl eq_refl)).
  apply IH. intros q' Hin. apply H. now right.
Qed.

Lemma filter_same_kept (existing : list ColorPalette) (p : ColorPalette)
    (l : list ColorPalette) :
  (forall q, In q existing -> samePalette p q = false) ->
  filter (samePalette p) (filter (fun q => negb (serialisedAmong existing q)) l)
  = filter (samePalette p) l.
Proof.
  intros H. induction l as [| q l IH]; [reflexivity |].
  cbn [filter]. destruct (serialisedAmong existing q) eqn:Hd; cbn [negb filter].
  - apply serialisedAmong_In in Hd. now rewrite (H q Hd).
  - destruct (samePalette p q); [now rewrite IH | exact IH].
Qed.

(** X25: the merge does not remove repetitions inside the response: a
    palette whose fields equal those of none of the existing alternative
    palettes occurs in the merged list as many times as in the response
    (the occurrences being counted by the equality of the fields). *)
Theorem merge_keeps_repetitions (newPalettes : list ColorPalette)
    (prev merged : DesignPlan) (p : ColorPalette) :
  (forall q, In q (alternativePalettes prev) -> samePalette p q = false) ->
  mergePalettes newPalettes (Some prev) = Some merged ->
  List.length (filter (samePalette p) (alternativePalettes merged))
  = List.length (filter (samePalette p) newPalettes).
Proof.
  intros Hnew. rewrite merged_alternatives. intros [= <-].
  cbn [withAlternativePalettes alternativePalettes].
  rewrite filter_app, (filter_same_absent _ _ Hnew), (filter_same_kept _ _ _ Hnew).
  reflexivity.
Qed.

Lemma merge_keeps_repetitions_witness :
  List.length
    (filter (samePalette (mkPalette "Plum" "Gold"))
       (alternativePalettes
          (withAlternativePalettes samplePlan
             [mkPalette "Sage" "Cream"; mkPalette "Navy" "Brass";
              mkPalette "Terracotta" "Sand"; mkPalette "Plum" "Gold";
              mkPalette "Plum" "Gold"])))
  = 2.
Proof.
  apply (merge_keeps_repetitions
           [mkPalette "Plum" "Gold"; mkPalette "Navy" "Brass";
            mkPalette "Plum" "Gold"]
           samplePlan).
  - intros q [<- | [<- | [<- | []]]]; reflexivity.
  - reflexivity.
Defined.

(** X26: the merge and the change of wall color commute: the merge reads and
    writes the alternative palettes only, the recolor the wall color
    only. *)
Theorem merge_commutes_with_recolor (newPalettes : list ColorPalette)
    (plan : DesignPlan) (newColors : ColorPalette) :
  mergePalettes newPalettes (Some (withWallColor plan newColors))
  = option_map (fun merged => withWallColor merged newColors)
      (mergePalettes newPalettes (Some plan)).
Proof. reflexivity. Qed.

Lemma or_else_same (s : string) : Js.or_else s s = s.
Proof. unfold Js.or_else. now destruct (Js.truthy s). Qed.

(** X27: In the recolor flow the request carries the plan already recolored,
    so the prompt the gateway builds for it uses the color and the accent
    of the chosen palette as they are, even when one of them is the empty
    string. *)
Theorem recolor_prompt_uses_chosen_palette (st : State) (plan : DesignPlan)
    (image : string) (chosen : ColorPalette) :
  designPlan st = Some plan ->
  uploadedImage st = Some image -> image <> EmptyString ->
  exists (waiting : State) (payload : Gateway.RedesignPayload)
         (k : Js.Exn string -> State -> Flow),
    handleColorChange chosen st = AwaitRedesignedImage waiting payload k /\
    Gateway.redesignedImagePrompt (Gateway.designPlan payload)
      (Gateway.style payload) (Gateway.roomType payload)
      (Gateway.newColors payload)
    = Gateway.imagePromptWith (withWallColor plan chosen) (selectedStyle st)
        (selectedRoomType st) (color chosen) (accent chosen).
Proof.
  intros Hplan Himage Hi. apply truthy_true in Hi.
  unfold handleColorChange. rewrite Hplan, Himage, Hi. cbn [negb].
  do 3 eexists. split; [reflexivity |].
  cbn [Gateway.designPlan Gateway.style Gateway.roomType Gateway.newColors].
  unfold Gateway.redesignedImagePrompt, Gateway.primaryColor,
    Gateway.accentColor.
  cbn [option_map Js.or_else_opt withWallColor wallColor color accent].
  now rewrite !or_else_same.
Qed.

Lemma recolor_prompt_uses_chosen_palette_witness :
  exists (waiting : State) (payload : Gateway.RedesignPayload)
         (k : Js.Exn string -> State -> Flow),
    handleColorChange (mkPalette EmptyString "Gold") plannedState
    = AwaitRedesignedImage waiting payload k /\
    Gateway.redesignedImagePrompt (Gateway.designPlan payload)
      (Gateway.style payload) (Gateway.roomType payload)
      (Gateway.newColors payload)
    = Gateway.imagePromptWith
        (withWallColor samplePlan (mkPalette EmptyString "Gold"))
        "Modern" "Bedroom" EmptyString "Gold".
Proof.
  apply (recolor_prompt_uses_chosen_palette plannedState samplePlan "AAAA"
           (mkPalette EmptyString "Gold") eq_refl eq_refl).
  discriminate.
Defined.

End MergeFacts.

(** ** The two revisions of the image case *)

Section RevisionFacts.
Import Gateway.

(** X8: the two revisions of the image case map the backend response alike
    when it holds an image, and both throw when it holds none; the second
    revision then throws one and the same message, whatever the stop
    reason, the safety ratings and the text of the response. *)
Theorem revisions_agree_on_images (response : GenerateContentResponse) :
  (forall answer,
     mapRedesignedImage response = Js.Return answer <->
     Revision2.mapRedesignedImage response = Js.Return answer) /\
  ((exists message, mapRedesignedImage response = Js.Throw message) <->
   Revision2.mapRedesignedImage response = Js.Throw Revision2.noImageMessage).
Proof.
  unfold mapRedesignedImage, Revision2.mapRedesignedImage.
  destruct (findImage (firstCandidate response)); split.
  - intros answer. split; intros H; exact H.
  - split; [intros [m H]; discriminate H | discriminate].
  - intros answer. split; discriminate.
  - split; [reflexivity | intros _; eexists; reflexivity].
Qed.

Lemma Contains_prefix3 (a b c rest : string) :
  Contains (a ++ b ++ c) (a ++ b ++ c ++ rest).
Proof.
  exists EmptyString, rest. cbn [append]. now rewrite !append_assoc.
Qed.

Lemma revision2_template_contains_accent (plan : DesignPlan)
    (style roomType : string) (newColors : option ColorPalette) :
  Contains (Js.dq ++ accentColor plan newColors ++ Js.dq)
    (Revision2.redesignedImagePrompt plan style roomType newColors).
Proof.
  unfold Revision2.redesignedImagePrompt. destruct (isExterior roomType);
    [unfold Revision2.exteriorTemplate | unfold Revision2.interiorTemplate];
    do 19 apply Contains_append_l; apply Contains_prefix3.
Qed.

(** X9: In the second revision the prompt quotes the accent color for every
    room type, and always ends with the demand for a single image and no
    text. *)
Theorem revision2_prompt_shape (plan : DesignPlan) (style roomType : string)
    (newColors : option ColorPalette) :
  let prompt := Revision2.redesignedImagePrompt plan style roomType newColors in
  Contains (Js.dq ++ accentColor plan newColors ++ Js.dq) prompt /\
  EndsWith "Goal: A single, photorealistic image. No text." prompt.
Proof.
  split; [apply revision2_template_contains_accent |].
  unfold Revision2.redesignedImagePrompt.
  destruct (isExterior roomType);
    [unfold Revision2.exteriorTemplate | unfold Revision2.interiorTemplate];
    repeat apply EndsWith_append; apply EndsWith_refl.
Qed.

End RevisionFacts.

(** ** Evaluations of the model *)

Section Evaluations.
Import Gateway.

(** Letter case does not matter for the exterior branch, anything else
    does. *)
Example exterior_in_any_case :
  isExterior "eXtErIoR" = true /\ isExterior "Exterior " = false /\
  isExterior "Living Room" = false.
Proof. repeat split. Qed.

(** A text part whose text is the placeholder itself is taken for the
    absence of text: the stop reason is reported instead. *)
Example placeholder_text_is_no_text :
  mapRedesignedImage
    (mkGenResponse (Some [mkCandidate
       (Some (mkContent (Some [mkPart (Some "[No text response]") None])))
       (Some "STOP") None]))
  = Js.Throw "The AI did not return a redesigned image. The process stopped unexpectedly. Reason: STOP.".
Proof. reflexivity. Qed.

(** A safety block without any blocked rating names no category. *)
Example safety_without_blocked_rating :
  mapRedesignedImage
    (mkGenResponse (Some [mkCandidate None (Some "SAFETY")
       (Some [mkRating "SEXUAL" (Some false)])]))
  = Js.Throw "Image generation was blocked by safety filters for the following reasons: unknown.".
Proof. reflexivity. Qed.

(** The serialised form of a palette follows the order of its keys. *)
Example stringify_follows_key_order :
  Json.stringify (mkPaletteObject "Navy" "Brass" AccentFirst)
  = "{" ++ Js.dq ++ "accent" ++ Js.dq ++ ":" ++ Js.dq ++ "Brass" ++ Js.dq ++
    "," ++ Js.dq ++ "color" ++ Js.dq ++ ":" ++ Js.dq ++ "Navy" ++ Js.dq ++ "}" /\
  Json.stringify (mkPalette "Navy" "Brass")
  = "{" ++ Js.dq ++ "color" ++ Js.dq ++ ":" ++ Js.dq ++ "Navy" ++ Js.dq ++
    "," ++ Js.dq ++ "accent" ++ Js.dq ++ ":" ++ Js.dq ++ "Brass" ++ Js.dq ++ "}".
Proof. split; reflexivity. Qed.

(** A response without candidates. *)
Example no_candidates :
  mapRedesignedImage (mkGenResponse None)
  = Js.Throw "The AI returned no valid candidates in the response.".
Proof. reflexivity. Qed.

(** The dimension text for a room of 10 by 12 meters, and for a room
    whose width is zero. *)
Example dimension_text_meters :
  dimensionText
    (Some (mkDims (Some (Js.mkNumber true "10.5")) (Some (Js.mkNumber true "12")) "m"))
  = " The user has specified the room is approximately 10.5 meters wide by 12 meters long. Please ensure your furniture suggestions and layout advice are appropriately scaled for a room of this size and explicitly mention this in your analysis.".
Proof. reflexivity. Qed.

Example dimension_text_zero_width :
  dimensionText
    (Some (mkDims (Some (Js.mkNumber false "0")) (Some (Js.mkNumber true "12")) "ft"))
  = EmptyString.
Proof. reflexivity. Qed.

(** The client turns a 500 answer of the gateway into a rejection that
    carries the message of the gateway. *)
Example server_error_reaches_client :
  Service.generateRedesignedImage
    (Js.Return (handleRedesignedImage "POST" (Some "key")
                  (fun _ => Js.Return (mkGenResponse None))
                  (mkRedesignPayload samplePlan "Modern" "Bedroom" "AAAA" None)))
  = Js.Throw "Server error: The AI returned no valid candidates in the response.".
Proof. reflexivity. Qed.

End Evaluations.
